(** * Client record reconciliation and aggregation

    A shallow embedding of the record classifier, the field extractors
    and the aggregator of [clients_summary.py] and [clients_menu.py], and
    of the file-backed store of [src/database.py], together with the
    properties of their specification; and of the prompts, validators
    and saving of the menu and the file naming of [src/intake.py], with
    further properties of the code.

    Conventions.
    - A Python [str] is a [string] whose characters are code points below
      256; whitespace, digits and case follow Python on that range.
    - A Python [float] is identified with the rational number it denotes
      (plus the three non-finite values); binary64 rounding is outside
      the model, so sums and quotients are exact.
    - A Python [dict] is an association list in insertion order; a lookup
      returns the first binding of the key.
    - A raised exception is an explicit [Raise] result. *)

From Stdlib Require Import ZArith QArith List String Ascii Bool Arith Lia.
From Stdlib Require Import Permutation Sorted.
Import ListNotations.

Set Warnings "-register-all".

Close Scope Q_scope.
Local Open Scope string_scope.
Local Open Scope list_scope.
Local Open Scope nat_scope.

(* ===================================================================== *)
(** ** Python strings *)
(* ===================================================================== *)

Module PyStr.

(** [str.isspace] on code points below 256. *)
Definition is_space (c : ascii) : bool :=
  let n := nat_of_ascii c in
  ((9 <=? n) && (n <=? 13)) || ((28 <=? n) && (n <=? 32))
  || (n =? 133) || (n =? 160).

Definition is_digit (c : ascii) : bool :=
  let n := nat_of_ascii c in (48 <=? n) && (n <=? 57).

Definition digit_val (c : ascii) : Z := (Z.of_nat (nat_of_ascii c) - 48)%Z.

Fixpoint drop_while {A} (p : A -> bool) (l : list A) : list A :=
  match l with
  | [] => []
  | x :: t => if p x then drop_while p t else l
  end.

Definition chars := list_ascii_of_string.
Definition of_chars := string_of_list_ascii.

(** [s] without the leading and trailing characters that satisfy [p] *)
Definition strip_with (p : ascii -> bool) (s : string) : string :=
  of_chars (rev (drop_while p (rev (drop_while p (chars s))))).

(** [s.strip()] *)
Definition strip (s : string) : string := strip_with is_space s.

(** [str.lower] on one code point below 256. *)
Definition lower_char (c : ascii) : ascii :=
  let n := nat_of_ascii c in
  if ((65 <=? n) && (n <=? 90))
     || ((192 <=? n) && (n <=? 222) && negb (n =? 215))
  then ascii_of_nat (n + 32) else c.

(** [s.lower()] *)
Definition lower (s : string) : string := of_chars (map lower_char (chars s)).

Fixpoint starts_with (p s : list ascii) : bool :=
  match p, s with
  | [], _ => true
  | a :: p', b :: s' => Ascii.eqb a b && starts_with p' s'
  | _ :: _, [] => false
  end.

(** [s.endswith(suffix)] *)
Definition endswith (s suffix : string) : bool :=
  starts_with (rev (chars suffix)) (rev (chars s)).

Fixpoint contains_chars (p s : list ascii) : bool :=
  starts_with p s
  || match s with
     | [] => false
     | _ :: s' => contains_chars p s'
     end.

(** [p in s] for two strings *)
Definition contains (p s : string) : bool := contains_chars (chars p) (chars s).

(** [a < b] and [a <= b] on strings: code point by code point *)
Fixpoint ltb_chars (a b : list ascii) : bool :=
  match a, b with
  | [], [] => false
  | [], _ :: _ => true
  | _ :: _, [] => false
  | x :: a', y :: b' =>
      let n := nat_of_ascii x in
      let m := nat_of_ascii y in
      (n <? m) || ((n =? m) && ltb_chars a' b')
  end.

Definition ltb (a b : string) : bool := ltb_chars (chars a) (chars b).
Definition leb (a b : string) : bool := negb (ltb b a).

(** [s[-n:]] for a positive [n]: the whole string when it is shorter *)
Definition last_n (n : nat) (s : string) : string :=
  of_chars (skipn (List.length (chars s) - n) (chars s)).

End PyStr.

(* ===================================================================== *)
(** ** Python floats *)
(* ===================================================================== *)

Module PyFloat.

Inductive pyfloat : Type :=
| Fin (q : Q)
| PosInf
| NegInf
| NaN.

Definition of_Z (z : Z) : pyfloat := Fin (inject_Z z).

Definition is_zero (f : pyfloat) : bool :=
  match f with
  | Fin q => Qeq_bool q 0%Q
  | _ => false
  end.

(** [a + b] *)
Definition add (a b : pyfloat) : pyfloat :=
  match a, b with
  | NaN, _ | _, NaN => NaN
  | PosInf, NegInf | NegInf, PosInf => NaN
  | PosInf, _ | _, PosInf => PosInf
  | NegInf, _ | _, NegInf => NegInf
  | Fin x, Fin y => Fin (Qred (x + y)%Q)
  end.

(** [a / n] for a positive [int] [n] *)
Definition div_nat (a : pyfloat) (n : nat) : pyfloat :=
  match a with
  | Fin x => Fin (Qred (x / inject_Z (Z.of_nat n))%Q)
  | other => other
  end.

(** [sum(l)]: the accumulator starts at the integer [0] *)
Definition sum (l : list pyfloat) : pyfloat := fold_left add l (of_Z 0).


(** *** [float(s)] for a string

    Between leading and trailing whitespace, an optional sign is followed
    by [inf], [infinity], [nan] (any case) or by a decimal number with an
    optional exponent; digits may be grouped by single underscores. *)

(** the whitespace [float] skips: the separators 28 to 31, which
    [str.strip] removes, are not part of it *)
Definition is_float_space (c : ascii) : bool :=
  let n := nat_of_ascii c in
  ((9 <=? n) && (n <=? 13)) || (n =? 32) || (n =? 133) || (n =? 160).

(** digits after the first one of a digit part: value so far, count *)
Fixpoint digits_rest (cs : list ascii) (acc : Z) (n : nat)
  : Z * nat * list ascii :=
  match cs with
  | [] => (acc, n, [])
  | c :: cs' =>
      if PyStr.is_digit c
      then digits_rest cs' (10 * acc + PyStr.digit_val c)%Z (S n)
      else if Ascii.eqb c "_"
           then match cs' with
                | d :: cs'' =>
                    if PyStr.is_digit d
                    then digits_rest cs'' (10 * acc + PyStr.digit_val d)%Z (S n)
                    else (acc, n, cs)
                | [] => (acc, n, cs)
                end
           else (acc, n, cs)
  end.

(** a digit part: [None] when the input does not start with a digit *)
Definition digitpart (cs : list ascii) : option (Z * nat * list ascii) :=
  match cs with
  | c :: cs' =>
      if PyStr.is_digit c then Some (digits_rest cs' (PyStr.digit_val c) 1)
      else None
  | [] => None
  end.

Definition sign_of (cs : list ascii) : bool * list ascii :=
  match cs with
  | c :: cs' =>
      if Ascii.eqb c "-" then (true, cs')
      else if Ascii.eqb c "+" then (false, cs')
      else (false, cs)
  | [] => (false, [])
  end.

(** [m * 10 ^ e] *)
Definition scale10 (m e : Z) : Q :=
  if (0 <=? e)%Z then inject_Z (m * 10 ^ e)%Z
  else Qred (Qmake m (Z.to_pos (10 ^ (- e))%Z)).

(** the exponent suffix: [Some 0] when there is none *)
Definition exponent (cs : list ascii) : option Z :=
  match cs with
  | [] => Some 0%Z
  | c :: cs' =>
      if Ascii.eqb c "e" || Ascii.eqb c "E"
      then let (neg, ds) := sign_of cs' in
           match digitpart ds with
           | Some (v, _, []) => Some (if neg then (- v)%Z else v)
           | _ => None
           end
      else None
  end.

(** an unsigned decimal number with its exponent *)
Definition floatnumber (cs : list ascii) : option Q :=
  match digitpart cs with
  | Some (i, _, rest) =>
      match rest with
      | c :: rest' =>
          if Ascii.eqb c "."
          then match digitpart rest' with
               | Some (f, k, rest'') =>
                   option_map
                     (fun e => scale10 (i * 10 ^ Z.of_nat k + f)%Z
                                       (e - Z.of_nat k)%Z)
                     (exponent rest'')
               | None => option_map (scale10 i) (exponent rest')
               end
          else option_map (scale10 i) (exponent rest)
      | [] => Some (inject_Z i)
      end
  | None =>
      match cs with
      | c :: rest' =>
          if Ascii.eqb c "."
          then match digitpart rest' with
               | Some (f, k, rest'') =>
                   option_map (fun e => scale10 f (e - Z.of_nat k)%Z)
                              (exponent rest'')
               | None => None
               end
          else None
      | [] => None
      end
  end.

Definition of_string (s : string) : option pyfloat :=
  let (neg, body) := sign_of (PyStr.chars (PyStr.strip_with is_float_space s)) in
  let word := PyStr.of_chars (map PyStr.lower_char body) in
  if String.eqb word "inf" || String.eqb word "infinity"
  then Some (if neg then NegInf else PosInf)
  else if String.eqb word "nan" then Some NaN
  else option_map (fun q => Fin (if neg then Qred (- q)%Q else q))
                  (floatnumber body).

End PyFloat.
Export PyFloat.


(* ===================================================================== *)
(** ** Python values *)
(* ===================================================================== *)

(** What [json.load] returns, and what a caller may pass in an update:
    [VOther] stands for any Python object outside the JSON types. *)
Inductive pyval : Type :=
| VNone
| VBool (b : bool)
| VInt (z : Z)
| VFloat (f : pyfloat)
| VStr (s : string)
| VList (l : list pyval)
| VDict (d : list (string * pyval))
| VOther.

Definition pydict := list (string * pyval).

Module PyVal.

(** [bool(v)] *)
Definition truthy (v : pyval) : bool :=
  match v with
  | VNone => false
  | VBool b => b
  | VInt z => negb (z =? 0)%Z
  | VFloat f => negb (PyFloat.is_zero f)
  | VStr s => negb (String.eqb s "")
  | VList l => match l with [] => false | _ => true end
  | VDict d => match d with [] => false | _ => true end
  | VOther => true
  end.

(** [a or b] *)
Definition por (a b : pyval) : pyval := if truthy a then a else b.

(** [d[k]] when the key is there *)
Fixpoint lookup (d : pydict) (k : string) : option pyval :=
  match d with
  | [] => None
  | (k', v) :: d' => if String.eqb k k' then Some v else lookup d' k
  end.

(** [k in d] *)
Definition has_key (d : pydict) (k : string) : bool :=
  match lookup d k with Some _ => true | None => false end.

(** [d.get(k)] *)
Definition get (d : pydict) (k : string) : pyval :=
  match lookup d k with Some v => v | None => VNone end.

(** [d[k] = v]: an existing key keeps its place, a new one goes last *)
Fixpoint set (d : pydict) (k : string) (v : pyval) : pydict :=
  match d with
  | [] => [(k, v)]
  | (k', v') :: d' =>
      if String.eqb k k' then (k', v) :: d' else (k', v') :: set d' k v
  end.


(** [v in (None, "")] *)
Definition is_none_or_empty (v : pyval) : bool :=
  match v with
  | VNone => true
  | VStr s => String.eqb s ""
  | _ => false
  end.

(** [float(v)]; [None] when it raises.  An [int] beyond the binary64
    range raises [OverflowError], every non-numeric type but [str]
    raises [TypeError], a malformed string raises [ValueError]. *)
Definition to_float (v : pyval) : option pyfloat :=
  match v with
  | VBool b => Some (PyFloat.of_Z (if b then 1 else 0))
  | VInt z =>
      if (Z.abs z <? 2 ^ 1024 - 2 ^ 970)%Z then Some (PyFloat.of_Z z)
      else None
  | VFloat f => Some f
  | VStr s => PyFloat.of_string s
  | VNone | VList _ | VDict _ | VOther => None
  end.

(** whether [json.dump] can serialise the value *)
Fixpoint serialisable (v : pyval) : bool :=
  match v with
  | VList l => forallb serialisable l
  | VDict d => forallb (fun kv => serialisable (snd kv)) d
  | VOther => false
  | _ => true
  end.

End PyVal.

(** What a file holds, as [json.load] sees it. *)
Inductive file_content : Type :=
| JsonText (v : pyval)   (** text that parses to [v] *)
| BadText.               (** text that is not a JSON document *)

(* ===================================================================== *)
(** ** clients_summary.py *)
(* ===================================================================== *)

Module ClientsSummary.
Import PyVal.

Definition is_client_record (data : pyval) : bool :=
  match data with
  | VDict d =>
      if truthy (get d "name") && truthy (get d "business_name") then true
      else if truthy (get d "business_name")
              && (has_key d "employees_count" || has_key d "industry")
      then true
      else false
  | _ => false
  end.

Definition extract_industry (data : pydict) : option string :=
  match get data "industry" with
  | VStr ind =>
      if negb (String.eqb (PyStr.strip ind) "") then Some (PyStr.strip ind)
      else None
  | _ => None
  end.

Definition extract_employees (data : pydict) : option pyfloat :=
  match lookup data "employees_count" with
  | Some v => to_float v
  | None =>
      match lookup data "employees" with
      | Some v => to_float v
      | None => None
      end
  end.

(** the loop over the [challenges] list *)
Fixpoint challenge_items (ch : list pyval) : list string :=
  match ch with
  | [] => []
  | VStr c :: rest =>
      if negb (String.eqb (PyStr.strip c) "")
      then PyStr.strip c :: challenge_items rest
      else challenge_items rest
  | _ :: rest => challenge_items rest
  end.

Definition extract_challenges (data : pydict) : list string :=
  let items :=
    match get data "main_challenge" with
    | VStr mc =>
        if negb (String.eqb (PyStr.strip mc) "") then [PyStr.strip mc] else []
    | _ => []
    end in
  match get data "challenges" with
  | VList ch => items ++ challenge_items ch
  | _ => items
  end.

(** *** [collections.Counter] and [most_common(1)] *)

Definition counter := list (string * nat).

(** [c[x] = c.get(x, 0) + 1] *)
Fixpoint counter_incr (c : counter) (x : string) : counter :=
  match c with
  | [] => [(x, 1)]
  | (y, n) :: c' =>
      if String.eqb x y then (y, S n) :: c' else (y, n) :: counter_incr c' x
  end.

(** [Counter(l)] *)
Definition Counter (l : list string) : counter := fold_left counter_incr l [].

(** [max(items, key=count)]: the first item with the greatest count *)
Fixpoint max_from (best : string * nat) (items : counter) : string * nat :=
  match items with
  | [] => best
  | it :: rest =>
      if snd best <? snd it then max_from it rest else max_from best rest
  end.

(** [c.most_common(1)] *)
Definition most_common_1 (c : counter) : list (string * nat) :=
  match c with
  | [] => []
  | it :: rest => [max_from it rest]
  end.

(** *** [summarize] *)

Record accum : Type := {
  industries : list string;
  employee_counts : list pyfloat;
  challenges : list string;
  total_clients : nat
}.

Definition accum0 : accum :=
  {| industries := []; employee_counts := []; challenges := [];
     total_clients := 0 |}.

(** one iteration of [for fp in files] *)
Definition visit (a : accum) (content : file_content) : accum :=
  match content with
  | BadText => a
  | JsonText data =>
      if negb (is_client_record data) then a
      else
        match data with
        | VDict d =>
            {| industries :=
                 match extract_industry d with
                 | Some ind => industries a ++ [ind]
                 | None => industries a
                 end;
               employee_counts :=
                 match extract_employees d with
                 | Some emp => employee_counts a ++ [emp]
                 | None => employee_counts a
                 end;
               challenges := challenges a ++ extract_challenges d;
               total_clients := S (total_clients a) |}
        | _ => a
        end
  end.

(** the order-preserving deduplication loop: [seen], [dedup_challenges] *)
Fixpoint dedup_loop (cs seen out : list string) : list string :=
  match cs with
  | [] => out
  | c :: rest =>
      if existsb (String.eqb c) seen then dedup_loop rest seen out
      else dedup_loop rest (c :: seen) (out ++ [c])
  end.

Record summary : Type := {
  total : nat;
  most_common_industry : option string;
  avg_employees : option pyfloat;
  dedup_challenges : list string
}.

Definition most_common_of (inds : list string) : option string :=
  match inds with
  | [] => None
  | _ => option_map fst (hd_error (most_common_1 (Counter inds)))
  end.

Definition average_of (counts : list pyfloat) : option pyfloat :=
  match counts with
  | [] => None
  | _ => Some (PyFloat.div_nat (PyFloat.sum counts) (List.length counts))
  end.

Definition finish (a : accum) : summary :=
  {| total := total_clients a;
     most_common_industry := most_common_of (industries a);
     avg_employees := average_of (employee_counts a);
     dedup_challenges := dedup_loop (challenges a) [] [] |}.

(** [folder.glob("*.json")], in the order the folder yields its files *)
Definition glob_json (folder : list (string * file_content))
  : list file_content :=
  map snd (filter (fun f => PyStr.endswith (fst f) ".json") folder).

Definition summarize (folder : list (string * file_content)) : summary :=
  finish (fold_left visit (glob_json folder) accum0).

End ClientsSummary.

(* ===================================================================== *)
(** ** clients_menu.py *)
(* ===================================================================== *)

Module ClientsMenu.
Import PyVal.

Definition is_client_record (data : pyval) : bool :=
  match data with
  | VDict d =>
      if truthy (get d "name") && truthy (get d "business_name") then true
      else if truthy (get d "business_name")
              && (has_key d "employees_count" || has_key d "industry")
      then true
      else false
  | _ => false
  end.

(** [extract_field(data, *keys)]; the result [VNone] is Python's [None] *)
Fixpoint extract_field (data : pydict) (keys : list string) : pyval :=
  match keys with
  | [] => VNone
  | k :: rest =>
      match lookup data k with
      | Some v =>
          if negb (is_none_or_empty v) then v else extract_field data rest
      | None => extract_field data rest
      end
  end.

(** a row of [view_all_clients] *)
Record row : Type := {
  row_file : string;
  row_name : pyval;
  row_email : pyval;
  row_business_name : pyval;
  row_industry : pyval;
  row_employees : pyval;
  row_main_challenge : pyval
}.

Definition make_row (file : string) (data : pydict) : row :=
  {| row_file := file;
     row_name := por (extract_field data ["name"; "contact_name"])
                     (VStr "(unknown)");
     row_email := por (extract_field data ["email"; "contact_email"])
                      (VStr "");
     row_business_name := por (extract_field data ["business_name"])
                              (VStr "(unknown)");
     row_industry := por (extract_field data ["industry"]) (VStr "");
     row_employees := por (extract_field data ["employees_count"; "employees"])
                          (VStr "");
     row_main_challenge := por (extract_field data ["main_challenge"])
                               (VStr "") |}.

(** the loop of [view_all_clients] over the globbed files *)
Fixpoint rows_of (files : list (string * file_content)) : list row :=
  match files with
  | [] => []
  | (name, JsonText (VDict d)) :: rest =>
      if is_client_record (VDict d)
      then make_row name d :: rows_of rest
      else rows_of rest
  | _ :: rest => rows_of rest
  end.

Definition view_all_clients (folder : list (string * file_content))
  : list row :=
  rows_of (filter (fun f => PyStr.endswith (fst f) ".json") folder).

Section Fallback.
(** [str(v)] for a value that is not a string: Python's [repr] of
    numbers and containers is a parameter of the fallback summary. *)
Variable py_repr : pyval -> string.

Definition py_str (v : pyval) : string :=
  match v with
  | VStr s => s
  | _ => py_repr v
  end.

(** [industry_counts[ind] = industry_counts.get(ind, 0) + 1] over the
    rows whose industry text is not blank *)
Fixpoint industry_counts (rows : list row) (acc : ClientsSummary.counter)
  : ClientsSummary.counter :=
  match rows with
  | [] => acc
  | r :: rest =>
      let ind := PyStr.strip (py_str (por (row_industry r) (VStr ""))) in
      if negb (String.eqb ind "")
      then industry_counts rest (ClientsSummary.counter_incr acc ind)
      else industry_counts rest acc
  end.

(** [max(industry_counts.items(), key=lambda kv: kv[1])[0]] *)
Definition fallback_most_common (rows : list row) : option string :=
  match industry_counts rows [] with
  | [] => None
  | it :: rest => Some (fst (ClientsSummary.max_from it rest))
  end.

Fixpoint emp_values (rows : list row) : list pyfloat :=
  match rows with
  | [] => []
  | r :: rest =>
      if negb (is_none_or_empty (row_employees r))
      then match to_float (row_employees r) with
           | Some f => f :: emp_values rest
           | None => emp_values rest
           end
      else emp_values rest
  end.

Definition fallback_average (rows : list row) : option pyfloat :=
  ClientsSummary.average_of (emp_values rows).

End Fallback.

End ClientsMenu.

(* ===================================================================== *)
(** ** src/database.py *)
(* ===================================================================== *)

Inductive pyerr : Type :=
| FileNotFoundError
| ValueError
| AttributeError
| TypeError.

Inductive result (A : Type) : Type :=
| Ok (a : A)
| Raise (e : pyerr).
Arguments Ok {A} a.
Arguments Raise {A} e.

Definition bind {A B} (r : result A) (k : A -> result B) : result B :=
  match r with
  | Ok a => k a
  | Raise e => Raise e
  end.

Notation "x <- r ;; k" := (bind r (fun x => k))
  (at level 61, r at next level, right associativity).

(** [os.path] on POSIX path strings *)
Module OsPath.

Definition is_sep (c : ascii) : bool := Ascii.eqb c "/".

Fixpoint take_while {A} (p : A -> bool) (l : list A) : list A :=
  match l with
  | [] => []
  | x :: t => if p x then x :: take_while p t else []
  end.

(** [os.path.basename]: what follows the last separator *)
Definition basename (p : string) : string :=
  PyStr.of_chars
    (rev (take_while (fun c => negb (is_sep c)) (rev (PyStr.chars p)))).

(** [os.path.dirname]: the head up to the last separator, without its
    trailing separators unless it consists of separators only *)
Definition dirname (p : string) : string :=
  let head := PyStr.drop_while (fun c => negb (is_sep c)) (rev (PyStr.chars p)) in
  if forallb is_sep head then PyStr.of_chars head
  else PyStr.of_chars (rev (PyStr.drop_while is_sep head)).

(** [os.path.join(a, b)] *)
Definition join (a b : string) : string :=
  if PyStr.starts_with ["/"%char] (PyStr.chars b) then b
  else if String.eqb a "" || PyStr.endswith a "/" then a ++ b
  else a ++ "/" ++ b.

(** [os.path.splitext] of a path without separator: the extension
    starts at the last dot, unless only dots come before it *)
Definition splitext (p : string) : string * string :=
  let r := rev (PyStr.chars p) in
  let ext_rev := take_while (fun c => negb (Ascii.eqb c ".")) r in
  match PyStr.drop_while (fun c => negb (Ascii.eqb c ".")) r with
  | [] => (p, "")
  | dot :: stem_rev =>
      if existsb (fun c => negb (Ascii.eqb c ".")) stem_rev
      then (PyStr.of_chars (rev stem_rev), PyStr.of_chars (dot :: rev ext_rev))
      else (p, "")
  end.

(** a directory path without trailing separators (the root keeps one) *)
Definition norm (p : string) : string :=
  let cs := PyStr.chars p in
  if forallb is_sep cs then (match cs with [] => "" | _ => "/" end)
  else PyStr.of_chars (rev (PyStr.drop_while is_sep (rev cs))).

End OsPath.


Module Database.
Import PyVal.

Definition CLIENTS_SUBDIR : string := "".

(** *** Dates *)

(** a [datetime] at midnight *)
Record datetime : Type := { year : Z; month : Z; day : Z }.

(** [datetime.min] *)
Definition datetime_min : datetime := {| year := 1; month := 1; day := 1 |}.

Definition datetime_eqb (a b : datetime) : bool :=
  ((year a =? year b) && (month a =? month b) && (day a =? day b))%Z.

Definition datetime_ltb (a b : datetime) : bool :=
  ((year a <? year b)
   || ((year a =? year b)
       && ((month a <? month b)
           || ((month a =? month b) && (day a <? day b)))))%Z.

Definition is_leap (y : Z) : bool :=
  ((y mod 4 =? 0) && (negb (y mod 100 =? 0) || (y mod 400 =? 0)))%Z.

Definition days_in_month (y m : Z) : Z :=
  if (m =? 2)%Z then (if is_leap y then 29 else 28)%Z
  else if ((m =? 4) || (m =? 6) || (m =? 9) || (m =? 11))%Z then 30%Z
  else 31%Z.

Definition in_range (lo hi : nat) (c : ascii) : bool :=
  (lo <=? nat_of_ascii c) && (nat_of_ascii c <=? hi).

(** the directive [%m]: [1[0-2]|0[1-9]|[1-9]], every way it can match a
    prefix, in the order the alternatives are tried *)
Definition month_matches (cs : list ascii) : list (Z * list ascii) :=
  match cs with
  | a :: b :: rest =>
      (if Ascii.eqb a "1" && in_range 48 50 b
       then [((10 + PyStr.digit_val b)%Z, rest)] else [])
      ++ (if Ascii.eqb a "0" && in_range 49 57 b
          then [(PyStr.digit_val b, rest)] else [])
      ++ (if in_range 49 57 a then [(PyStr.digit_val a, b :: rest)] else [])
  | [a] => if in_range 49 57 a then [(PyStr.digit_val a, [])] else []
  | [] => []
  end.

(** the directive [%d]: [3[0-1]|[1-2]\d|0[1-9]|[1-9]| [1-9]], the first
    alternative that matches *)
Definition day_match (cs : list ascii) : option (Z * list ascii) :=
  match cs with
  | a :: b :: rest =>
      if Ascii.eqb a "3" && in_range 48 49 b
      then Some ((30 + PyStr.digit_val b)%Z, rest)
      else if in_range 49 50 a && PyStr.is_digit b
      then Some ((10 * PyStr.digit_val a + PyStr.digit_val b)%Z, rest)
      else if Ascii.eqb a "0" && in_range 49 57 b
      then Some (PyStr.digit_val b, rest)
      else if in_range 49 57 a
      then Some (PyStr.digit_val a, b :: rest)
      else if Ascii.eqb a " " && in_range 49 57 b
      then Some (PyStr.digit_val b, rest)
      else None
  | [a] => if in_range 49 57 a then Some (PyStr.digit_val a, []) else None
  | [] => None
  end.

(** the rest of the pattern after one way of matching the month *)
Fixpoint first_day (ms : list (Z * list ascii)) : option (Z * Z * list ascii) :=
  match ms with
  | [] => None
  | (m, cs) :: others =>
      match cs with
      | dash :: cs' =>
          if Ascii.eqb dash "-"
          then match day_match cs' with
               | Some (d, rest) => Some (m, d, rest)
               | None => first_day others
               end
          else first_day others
      | [] => first_day others
      end
  end.

(** [datetime.strptime(s, "%Y-%m-%d")]; [None] for [ValueError] *)
Definition strptime_ymd (s : string) : option datetime :=
  match PyStr.chars s with
  | y1 :: y2 :: y3 :: y4 :: dash :: cs =>
      if PyStr.is_digit y1 && PyStr.is_digit y2 && PyStr.is_digit y3
         && PyStr.is_digit y4 && Ascii.eqb dash "-"
      then
        match first_day (month_matches cs) with
        | Some (m, d, []) =>
            let y := (1000 * PyStr.digit_val y1 + 100 * PyStr.digit_val y2
                      + 10 * PyStr.digit_val y3 + PyStr.digit_val y4)%Z in
            if ((1 <=? y) && (d <=? days_in_month y m))%Z
            then Some {| year := y; month := m; day := d |}
            else None
        | _ => None
        end
      else None
  | _ => None
  end.

(** *** Records *)

Record ClientRecord : Type := {
  filename : string;
  path : string;
  data : pyval
}.

(** [record.business_name]: [.get] exists on a [dict] only *)
Definition business_name (r : ClientRecord) : result pyval :=
  match data r with
  | VDict d => Ok (por (get d "business_name") (get d "name"))
  | _ => Raise AttributeError
  end.

Definition industry (r : ClientRecord) : result pyval :=
  match data r with
  | VDict d => Ok (get d "industry")
  | _ => Raise AttributeError
  end.

(** [record.date] *)
Definition date (r : ClientRecord) : option datetime :=
  let base := OsPath.basename (filename r) in
  let (name, ext) := OsPath.splitext base in
  if negb (String.eqb (PyStr.lower ext) ".json") then None
  else if 11 <=? String.length name
       then strptime_ymd (PyStr.last_n 10 name)
       else None.

(** *** The file system *)

Inductive content : Type :=
| Text (c : file_content)             (** a text file, as [json.load] sees it *)
| Csv (rows : list (list pyval)).     (** rows written by the [csv] module *)

Record fs : Type := {
  dirs : list string;               (** the directories, without trailing separator *)
  files : list (string * content)   (** the regular files by path, in listing order *)
}.

Definition isdir (w : fs) (p : string) : bool :=
  negb (String.eqb p "") && existsb (String.eqb (OsPath.norm p)) (dirs w).

Fixpoint find_file (fl : list (string * content)) (p : string) : option content :=
  match fl with
  | [] => None
  | (q, c) :: rest => if String.eqb p q then Some c else find_file rest p
  end.

(** [os.listdir(d)]: the names of the files directly under [d] *)
Definition listdir (w : fs) (d : string) : list string :=
  map (fun f => OsPath.basename (fst f))
      (filter (fun f => String.eqb (OsPath.dirname (fst f)) (OsPath.norm d))
              (files w)).

Fixpoint put_file (fl : list (string * content)) (p : string) (c : content)
  : list (string * content) :=
  match fl with
  | [] => [(p, c)]
  | (q, c') :: rest =>
      if String.eqb p q then (q, c) :: rest else (q, c') :: put_file rest p c
  end.

(** every prefix of a path that ends before a separator, and the path *)
Fixpoint ancestors (seen rest : list ascii) : list string :=
  match rest with
  | [] => [OsPath.norm (PyStr.of_chars (rev seen))]
  | c :: rest' =>
      (if OsPath.is_sep c then [OsPath.norm (PyStr.of_chars (rev seen))] else [])
      ++ ancestors (c :: seen) rest'
  end.

(** [mkdir] of one directory unless it is there *)
Definition add_dir (ds : list string) (a : string) : list string :=
  if String.eqb a "" || existsb (String.eqb a) ds then ds else ds ++ [a].

(** [os.makedirs(d, exist_ok=True)] *)
Definition makedirs (w : fs) (d : string) : result unit * fs :=
  if String.eqb d "" then (Raise FileNotFoundError, w)
  else (Ok tt,
        {| dirs := fold_left add_dir (ancestors [] (PyStr.chars d)) (dirs w);
           files := files w |}).

(** [open(p, "w")] and what the [with] block leaves in the file: the
    file is created or truncated when its directory exists *)
Definition write_file (w : fs) (p : string) (c : content) : result unit * fs :=
  if String.eqb p "" then (Raise FileNotFoundError, w)
  else if String.eqb (OsPath.dirname p) "" || isdir w (OsPath.dirname p)
          || (match find_file (files w) p with Some _ => true | None => false end)
  then (Ok tt, {| dirs := dirs w; files := put_file (files w) p c |})
  else (Raise FileNotFoundError, w).

(** *** [ClientDatabase] *)

Record ClientDatabase : Type := { base_dir : string; clients_dir : string }.


(** [ClientDatabase(base_dir)] *)
Definition init (base : string) : ClientDatabase :=
  {| base_dir := base;
     clients_dir :=
       let j := OsPath.join base CLIENTS_SUBDIR in
       if negb (String.eqb j "") then j else base |}.

Definition _iter_client_files (self : ClientDatabase) (w : fs) : list string :=
  if negb (isdir w (clients_dir self)) then []
  else map (OsPath.join (clients_dir self))
           (filter (fun name => PyStr.endswith (PyStr.lower name) ".json")
                   (listdir w (clients_dir self))).

Definition _load_json (w : fs) (p : string) : result pyval :=
  if String.eqb p "" then Raise FileNotFoundError else
  match find_file (files w) p with
  | None => Raise FileNotFoundError
  | Some (Text (JsonText v)) => Ok v
  | Some (Text BadText) => Raise ValueError
  | Some (Csv _) => Raise ValueError
  end.

(** the sort key [(r.date or datetime.min, r.filename)] *)
Definition sort_key (r : ClientRecord) : datetime * string :=
  (match date r with Some d => d | None => datetime_min end, filename r).

(** [a <= b] on keys: tuples compare lexicographically *)
Definition key_leb (a b : datetime * string) : bool :=
  datetime_ltb (fst a) (fst b)
  || (datetime_eqb (fst a) (fst b) && PyStr.leb (snd a) (snd b)).

(** the order of the listing, on records *)
Definition key_le (a b : ClientRecord) : Prop :=
  key_leb (sort_key a) (sort_key b) = true.

Fixpoint insert_by {A} (le : A -> A -> bool) (x : A) (l : list A) : list A :=
  match l with
  | [] => [x]
  | y :: t => if le x y then x :: l else y :: insert_by le x t
  end.

(** [sorted(l)] for the order [le]: a stable sort *)
Fixpoint sort_by {A} (le : A -> A -> bool) (l : list A) : list A :=
  match l with
  | [] => []
  | x :: t => insert_by le x (sort_by le t)
  end.

(** [sorted(l, key=key)] *)
Definition sorted {A} (key : A -> datetime * string) (l : list A) : list A :=
  sort_by (fun a b => key_leb (key a) (key b)) l.

(** the loop of [list_clients] *)
Fixpoint load_all (w : fs) (paths : list string) : list ClientRecord :=
  match paths with
  | [] => []
  | p :: rest =>
      match _load_json w p with
      | Ok v =>
          {| filename := OsPath.basename p; path := p; data := v |}
            :: load_all w rest
      | Raise _ => load_all w rest
      end
  end.

Definition list_clients (self : ClientDatabase) (w : fs) : list ClientRecord :=
  if negb (isdir w (clients_dir self)) then []
  else sorted sort_key (load_all w (_iter_client_files self w)).

Definition load_client (self : ClientDatabase) (w : fs) (name : string)
  : result ClientRecord :=
  let p := OsPath.join (clients_dir self) name in
  v <- _load_json w p ;;
  Ok {| filename := name; path := p; data := v |}.

(** an optional string criterion that passes [if criterion:] *)
Definition criterion (o : option string) : option string :=
  match o with
  | Some s => if String.eqb s "" then None else Some s
  | None => None
  end.

Definition given (o : option string) : bool :=
  match criterion o with Some _ => true | None => false end.

(** [x.lower()]: a method of [str] only *)
Definition lower_of (v : pyval) : result string :=
  match v with
  | VStr s => Ok (PyStr.lower s)
  | _ => Raise AttributeError
  end.

(** [crit.lower() in (field or "").lower()] *)
Definition field_contains (crit : string) (field : result pyval) : result bool :=
  v <- field ;;
  text <- lower_of (por v (VStr "")) ;;
  Ok (PyStr.contains (PyStr.lower crit) text).

(** the inner function [matches] of [search_clients] *)
Definition matches (crit_name crit_ind : option string)
           (crit_date : option datetime) (record : ClientRecord) : result bool :=
  name_ok <- match criterion crit_name with
             | Some s => field_contains s (business_name record)
             | None => Ok true
             end ;;
  if negb name_ok then Ok false
  else
    ind_ok <- match criterion crit_ind with
              | Some s => field_contains s (industry record)
              | None => Ok true
              end ;;
    if negb ind_ok then Ok false
    else
      match crit_date with
      | Some d =>
          match date record with
          | Some rd => Ok (datetime_eqb rd d)
          | None => Ok false
          end
      | None => Ok true
      end.

(** [[rec for rec in l if matches(rec)]] *)
Fixpoint filter_matching (m : ClientRecord -> result bool) (l : list ClientRecord)
  : result (list ClientRecord) :=
  match l with
  | [] => Ok []
  | r :: rest =>
      keep <- m r ;;
      tail <- filter_matching m rest ;;
      Ok (if keep then r :: tail else tail)
  end.

Definition search_clients (self : ClientDatabase) (w : fs)
           (crit_name crit_ind : option string) (crit_date : option datetime)
  : result (list ClientRecord) :=
  let all_clients := list_clients self w in
  if negb (given crit_name || given crit_ind
           || match crit_date with Some _ => true | None => false end)
  then Ok all_clients
  else filter_matching (matches crit_name crit_ind crit_date) all_clients.


(** the union of the keys of all records, each once; [.keys] exists on
    a [dict] only *)
Fixpoint all_keys (clients : list ClientRecord) (acc : list string)
  : result (list string) :=
  match clients with
  | [] => Ok acc
  | r :: rest =>
      match data r with
      | VDict d =>
          all_keys rest
            (fold_left
               (fun ks kv =>
                  if existsb (String.eqb (fst kv)) ks then ks
                  else ks ++ [fst kv])
               d acc)
      | _ => Raise AttributeError
      end
  end.

(** one line of the export, in the order of [fieldnames] *)
Definition csv_row (fieldnames : list string) (r : ClientRecord) : list pyval :=
  map (fun f =>
         if String.eqb f "filename" then VStr (filename r)
         else match data r with
              | VDict d =>
                  match lookup d f with Some v => v | None => VStr "" end
              | _ => VStr ""
              end)
      fieldnames.

Definition default_csv_path (self : ClientDatabase) (csv_path : option string)
  : string :=
  match csv_path with
  | Some p => p
  | None => OsPath.join (base_dir self) "clients_export.csv"
  end.

(** [export_to_csv]: the result and the file system it leaves *)
Definition export_to_csv (self : ClientDatabase) (w : fs)
           (csv_path : option string) : result string * fs :=
  let clients := list_clients self w in
  match clients with
  | [] =>
      let p := default_csv_path self csv_path in
      match write_file w p (Csv [[VStr "filename"]]) with
      | (Ok _, w1) => (Ok p, w1)
      | (Raise e, w1) => (Raise e, w1)
      end
  | _ =>
      match all_keys clients [] with
      | Raise e => (Raise e, w)
      | Ok keys =>
          let fieldnames := "filename" :: sort_by PyStr.leb keys in
          let p := default_csv_path self csv_path in
          match makedirs w (OsPath.dirname p) with
          | (Raise e, w1) => (Raise e, w1)
          | (Ok _, w1) =>
              match write_file w1 p
                      (Csv (map VStr fieldnames
                            :: map (csv_row fieldnames) clients)) with
              | (Ok _, w2) => (Ok p, w2)
              | (Raise e, w2) => (Raise e, w2)
              end
          end
      end
  end.

End Database.


(* ===================================================================== *)
(** ** clients_menu.py: validators, prompts and saving *)
(* ===================================================================== *)

(** [int(s)] for a string: between leading and trailing whitespace, an
    optional sign and decimal digits that single underscores may group;
    [None] for [ValueError] *)
Module PyInt.

Definition of_string (s : string) : option Z :=
  let (neg, body) :=
    PyFloat.sign_of (PyStr.chars (PyStr.strip_with PyFloat.is_float_space s)) in
  match PyFloat.digitpart body with
  | Some (v, _, []) => Some (if neg then (- v)%Z else v)
  | _ => None
  end.

End PyInt.

Module MenuInput.
Import PyVal.

Definition is_alpha (c : ascii) : bool :=
  let n := nat_of_ascii c in
  ((65 <=? n) && (n <=? 90)) || ((97 <=? n) && (n <=? 122)).



(** the class [[A-Za-z0-9_-]] *)
Definition is_filename_char (c : ascii) : bool :=
  is_alpha c || PyStr.is_digit c || Ascii.eqb c "_" || Ascii.eqb c "-".





(** [v.replace(",", "")] *)
Definition without_commas (v : string) : string :=
  PyStr.of_chars (filter (fun c => negb (Ascii.eqb c ",")) (PyStr.chars v)).

Definition validate_employees (v : string) : option string :=
  match PyInt.of_string (without_commas v) with
  | Some n =>
      if (n <? 0)%Z then Some "Please enter a non-negative integer." else None
  | None => Some "Please enter a valid integer (e.g., 25)."
  end.

(** [re.sub(r"\s+", rep, s)]: every run of whitespace becomes one [rep] *)
Fixpoint sub_spaces (rep : ascii) (in_run : bool) (cs : list ascii) : list ascii :=
  match cs with
  | [] => []
  | c :: rest =>
      if PyStr.is_space c
      then if in_run then sub_spaces rep true rest
           else rep :: sub_spaces rep true rest
      else c :: sub_spaces rep false rest
  end.

(** [x or "client"] on strings *)
Definition or_client (x : string) : string :=
  if String.eqb x "" then "client" else x.

Definition sanitize_filename (name : string) : string :=
  let name1 := or_client (PyStr.strip name) in
  let name2 := sub_spaces "_" false (PyStr.chars name1) in
  let name3 := filter is_filename_char name2 in
  or_client (PyStr.of_chars name3).

(** *** Prompts *)

(** [Fore.RED], [Fore.GREEN] and [Style.RESET_ALL] of colorama *)
Definition RED : string := String (ascii_of_nat 27) "[31m".
Definition GREEN : string := String (ascii_of_nat 27) "[32m".
Definition RESET_ALL : string := String (ascii_of_nat 27) "[0m".

(** what a prompt hands to the terminal *)
Inductive event : Type :=
| Asked (text : string)        (** the prompt of [input] *)
| Printed (text : string)      (** [print(text)] *)
| PrintedErr (text : string).  (** [print(text, file=sys.stderr)] *)

(** [prompt(label, required, validate)] reading the lines [inputs]: the
    value returned ([None] when the input ends and the program exits),
    the lines left, and what was shown *)
Fixpoint prompt (label : string) (required : bool)
         (validate : option (string -> option string)) (inputs : list string)
  : option string * list string * list event :=
  match inputs with
  | [] =>
      (None, [],
       [Asked (label ++ ": ")%string;
        PrintedErr (RED ++ "Input ended unexpectedly." ++ RESET_ALL)%string])
  | line :: rest =>
      let val := PyStr.strip line in
      let again (msg : string) :=
        let '(r, rest', out) := prompt label required validate rest in
        (r, rest',
         Asked (label ++ ": ")%string
           :: Printed (RED ++ msg ++ RESET_ALL)%string :: out) in
      if String.eqb val "" && required
      then again (label ++ " is required. Please enter a value.")%string
      else
        match validate with
        | Some check =>
            if negb (String.eqb val "")
            then match check val with
                 | Some msg =>
                     if negb (String.eqb msg "") then again msg
                     else (Some val, rest, [Asked (label ++ ": ")%string])
                 | None => (Some val, rest, [Asked (label ++ ": ")%string])
                 end
            else (Some val, rest, [Asked (label ++ ": ")%string])
        | None => (Some val, rest, [Asked (label ++ ": ")%string])
        end
  end.

(** *** Saving *)

Section Save.
(** [repr] of the values that are not strings, as in the fallback
    summary: the f-string of [save_client] formats with [str] *)
Variable py_repr : pyval -> string.

(** [record.get(k, "")] *)
Definition get_or_empty (record : pydict) (k : string) : pyval :=
  match lookup record k with Some v => v | None => VStr "" end.

(** the file name [save_client] writes to *)
Definition client_file_name (record : pydict) : string :=
  (or_client
     (sanitize_filename
        (ClientsMenu.py_str py_repr (get_or_empty record "business_name")
         ++ "_" ++ ClientsMenu.py_str py_repr (get_or_empty record "name")))
   ++ ".json")%string.

(** the files of the working directory, by name *)
Definition folder := list (string * file_content).

Fixpoint write_text (f : folder) (name : string) (c : file_content) : folder :=
  match f with
  | [] => [(name, c)]
  | (n, c') :: rest =>
      if String.eqb name n then (n, c) :: rest
      else (n, c') :: write_text rest name c
  end.

(** [save_client(record)] in the working directory [f]: the file is
    opened for writing before the record is serialised *)
Definition save_client (f : folder) (record : pydict) : result string * folder :=
  let out := client_file_name record in
  if serialisable (VDict record)
  then (Ok out, write_text f out (JsonText (VDict record)))
  else (Raise TypeError, write_text f out BadText).

End Save.




End MenuInput.

(* ===================================================================== *)
(** ** src/intake.py: the name of the saved file *)
(* ===================================================================== *)

Module Intake.

(** the class [[a-z0-9\-_]] *)
Definition is_slug_char (c : ascii) : bool :=
  let n := nat_of_ascii c in
  ((97 <=? n) && (n <=? 122)) || PyStr.is_digit c
  || Ascii.eqb c "-" || Ascii.eqb c "_".

Definition _slugify (value : string) : string :=
  let value1 := PyStr.lower (PyStr.strip value) in
  let value2 := MenuInput.sub_spaces "-" false (PyStr.chars value1) in
  let value3 := filter is_slug_char value2 in
  MenuInput.or_client (PyStr.of_chars value3).

(** the decimal digit [n] *)
Definition digit_char (n : Z) : ascii := ascii_of_nat (48 + Z.to_nat n).

(** [d.strftime("%Y-%m-%d")] for a year of four digits *)
Definition strftime_ymd (d : Database.datetime) : string :=
  let y := Database.year d in
  let m := Database.month d in
  let dd := Database.day d in
  PyStr.of_chars
    [digit_char (y / 1000); digit_char (y / 100 mod 10);
     digit_char (y / 10 mod 10); digit_char (y mod 10); "-"%char;
     digit_char (m / 10); digit_char (m mod 10); "-"%char;
     digit_char (dd / 10); digit_char (dd mod 10)].

(** the [filename] of [save] on the day [today] *)
Definition save_filename (business_name : string) (today : Database.datetime)
  : string :=
  (_slugify business_name ++ "-" ++ strftime_ymd today ++ ".json")%string.

End Intake.

(* ===================================================================== *)
(** ** The specification's wording, for comparison with the code *)
(* ===================================================================== *)

Module Spec.
Import PyVal.

(** [l] without the [None]s *)
Fixpoint somes {A} (l : list (option A)) : list A :=
  match l with
  | [] => []
  | Some a :: rest => a :: somes rest
  | None :: rest => somes rest
  end.

(** the documents a folder contributes to the aggregate: the globbed
    files that parse and that the classifier accepts, in folder order *)
Fixpoint classified_of (contents : list file_content) : list pydict :=
  match contents with
  | [] => []
  | JsonText (VDict d) :: rest =>
      if ClientsSummary.is_client_record (VDict d)
      then d :: classified_of rest
      else classified_of rest
  | _ :: rest => classified_of rest
  end.

Definition classified (folder : list (string * file_content)) : list pydict :=
  classified_of (ClientsSummary.glob_json folder).

(** a file counts when it parses and the classifier accepts its document *)
Definition accepted (c : file_content) : bool :=
  match c with
  | JsonText v => ClientsSummary.is_client_record v
  | BadText => false
  end.

(** the accumulators of [summarize] as functions of the classified
    documents *)
Definition aggregate (recs : list pydict) : ClientsSummary.accum :=
  {| ClientsSummary.industries :=
       somes (map ClientsSummary.extract_industry recs);
     ClientsSummary.employee_counts :=
       somes (map ClientsSummary.extract_employees recs);
     ClientsSummary.challenges :=
       List.concat (map ClientsSummary.extract_challenges recs);
     ClientsSummary.total_clients := List.length recs |}.

(** the number of occurrences of [x] *)
Definition count (x : string) (l : list string) : nat :=
  count_occ string_dec l x.

(** the greatest number of occurrences of a value of [l] *)
Definition max_count (l : list string) : nat :=
  fold_right (fun x m => Nat.max (count x l) m) 0 l.

(** "the first value to reach the maximum count in iteration order":
    scanning [rest] after [seen], the first value whose running count
    equals [m] *)
Fixpoint first_to_reach (m : nat) (seen rest : list string) : option string :=
  match rest with
  | [] => None
  | x :: rest' =>
      if count x (x :: seen) =? m then Some x
      else first_to_reach m (x :: seen) rest'
  end.

Definition first_to_reach_max (l : list string) : option string :=
  first_to_reach (max_count l) [] l.

(** what the code's tie-break amounts to: [v] occurs at least as often
    as every value, and every value met before the first [v] occurs
    strictly less often *)
Definition first_among_most_frequent (l : list string) (v : string) : Prop :=
  (forall w, count w l <= count v l)
  /\ exists l1 l2,
       l = l1 ++ v :: l2 /\ ~ In v l1
       /\ forall w, In w l1 -> count w l < count v l.

(** "present": the key is in the mapping *)
Definition present (d : pydict) (k : string) : Prop := has_key d k = true.

(** "present and non-empty": the key is there with a value Python takes
    for true *)
Definition present_nonempty (d : pydict) (k : string) : Prop :=
  exists v, lookup d k = Some v /\ truthy v = true.

(** the classification rule as worded *)
Definition valid_client_record (d : pydict) : Prop :=
  (present_nonempty d "name" /\ present_nonempty d "business_name")
  \/ (present d "business_name"
      /\ (present d "employees_count" \/ present d "industry")).

(** "the first key in the priority order whose value is present and
    not empty/None" *)
Fixpoint first_present (d : pydict) (keys : list string) : option pyval :=
  match keys with
  | [] => None
  | k :: rest =>
      match lookup d k with
      | Some v => if is_none_or_empty v then first_present d rest else Some v
      | None => first_present d rest
      end
  end.

Definition employee_keys : list string :=
  ["employees_count"; "employees"; "num_employees"].

(** the arithmetic mean; absent for no value *)
Definition mean (l : list pyfloat) : option pyfloat :=
  match l with
  | [] => None
  | _ => Some (PyFloat.div_nat (PyFloat.sum l) (List.length l))
  end.


(** the non-empty strings of a list value *)
Fixpoint nonempty_strings (l : list pyval) : list string :=
  match l with
  | [] => []
  | VStr s :: rest =>
      if String.eqb s "" then nonempty_strings rest
      else s :: nonempty_strings rest
  | _ :: rest => nonempty_strings rest
  end.

(** [mainChallenges] as worded: the [main_challenge] value, then the
    list under [challenges], or else under [main_challenges] *)
Definition main_challenges (d : pydict) : list string :=
  nonempty_strings [get d "main_challenge"]
  ++ match get d "challenges" with
     | VList l => nonempty_strings l
     | _ => match get d "main_challenges" with
            | VList l => nonempty_strings l
            | _ => []
            end
     end.

(** the strings among the values [l] *)
Fixpoint strings_of (l : list pyval) : list string :=
  match l with
  | [] => []
  | VStr s :: rest => s :: strings_of rest
  | _ :: rest => strings_of rest
  end.

(** what the code keeps of a list value: its strings, stripped of
    surrounding whitespace, without those that are blank *)
Definition stripped_nonblank (l : list pyval) : list string :=
  filter (fun s => negb (String.eqb s "")) (map PyStr.strip (strings_of l)).

(** order-preserving deduplication as worded: "a value equal to one
    already emitted is dropped" *)
Definition emit (out : list string) (c : string) : list string :=
  if existsb (String.eqb c) out then out else out ++ [c].

Definition dedup (l : list string) : list string := fold_left emit l [].

(** "the last 10 characters before the extension parsed as YYYY-MM-DD" *)
Definition filename_date (name : string) : option Database.datetime :=
  Database.strptime_ymd
    (PyStr.last_n 10 (fst (OsPath.splitext (OsPath.basename name)))).

End Spec.

(* ===================================================================== *)
(** ** Sample folders and stores *)
(* ===================================================================== *)

Module Examples.

(** a client document with the given industry *)
Definition with_industry (ind : string) : file_content :=
  JsonText (VDict [("business_name", VStr "Acme"); ("industry", VStr ind)]).

(** industries met in the order Retail, Tech, Retail, Tech *)
Definition retail_tech_folder : list (string * file_content) :=
  [("a.json", with_industry "Retail"); ("b.json", with_industry "Tech");
   ("c.json", with_industry "Retail"); ("d.json", with_industry "Tech")].

(** industries met in the order Tech, Retail, Retail, Tech *)
Definition tech_retail_folder : list (string * file_content) :=
  [("a.json", with_industry "Tech"); ("b.json", with_industry "Retail");
   ("c.json", with_industry "Retail"); ("d.json", with_industry "Tech")].

(** a client document with the given employee value *)
Definition with_employees (v : pyval) : file_content :=
  JsonText (VDict [("name", VStr "Kim"); ("business_name", VStr "Acme");
                   ("employees_count", v)]).

(** employee values 10, "bad", 20 *)
Definition ten_bad_twenty : list (string * file_content) :=
  [("a.json", with_employees (VInt 10));
   ("b.json", with_employees (VStr "bad"));
   ("c.json", with_employees (VInt 20))].


(** an empty business name next to an industry *)
Definition blank_business : pydict :=
  [("business_name", VStr ""); ("industry", VStr "Retail")].

(** the head count under [num_employees] only *)
Definition num_employees_only : pydict :=
  [("business_name", VStr "Acme"); ("industry", VStr "Retail");
   ("num_employees", VInt 12)].

(** challenges under [main_challenges] only *)
Definition main_challenges_only : pydict :=
  [("business_name", VStr "Acme"); ("industry", VStr "Retail");
   ("main_challenges", VList [VStr "Hiring"])].

Definition main_challenges_folder : list (string * file_content) :=
  [("acme.json", JsonText (VDict main_challenges_only))].

(** a store directory with two client files *)
Definition acme_doc : pyval :=
  VDict [("business_name", VStr "Acme Corp"); ("industry", VStr "Retail")].

Definition beta_doc : pyval :=
  VDict [("name", VStr "Bo"); ("business_name", VStr "Beta")].

Definition store : Database.fs :=
  {| Database.dirs := ["/srv"; "/srv/clients"];
     Database.files :=
       [("/srv/clients/beta.json", Database.Text (JsonText beta_doc));
        ("/srv/clients/acme-2025-11-16.json",
         Database.Text (JsonText acme_doc))] |}.

(** the same directory with a file whose root is a list *)
Definition store_with_list_root : Database.fs :=
  {| Database.dirs := ["/srv"; "/srv/clients"];
     Database.files :=
       Database.files store
       ++ [("/srv/clients/notes.json",
            Database.Text (JsonText (VList [VInt 1; VInt 2])))] |}.

Definition list_root_folder : list (string * file_content) :=
  [("beta.json", JsonText beta_doc);
   ("acme-2025-11-16.json", JsonText acme_doc);
   ("notes.json", JsonText (VList [VInt 1; VInt 2]))].

(** no store directory *)
Definition no_store : Database.fs :=
  {| Database.dirs := ["/srv"]; Database.files := [] |}.

Definition db : Database.ClientDatabase := Database.init "/srv/clients".

Definition named (name : string) : Database.ClientRecord :=
  {| Database.filename := name;
     Database.path := OsPath.join "/srv/clients/" name;
     Database.data := VDict [] |}.

End Examples.

(* ===================================================================== *)
(** ** Shapes of strings, records and stores used in the statements *)
(* ===================================================================== *)

Module Shapes.
Import PyVal.

(** no path separator in [s] *)
Definition sep_free (s : string) : bool :=
  forallb (fun c => negb (OsPath.is_sep c)) (PyStr.chars s).

(** the root of the document is a mapping *)
Definition is_mapping (v : pyval) : bool :=
  match v with VDict _ => true | _ => false end.

(** a string, or a value Python takes for false *)
Definition text_or_false (v : pyval) : bool :=
  match v with
  | VStr _ => true
  | _ => negb (truthy v)
  end.


(** the record passes the inner function [matches] *)
Definition selected (cn ci : option string) (cd : option Database.datetime)
           (r : Database.ClientRecord) : bool :=
  match Database.matches cn ci cd r with
  | Ok true => true
  | _ => false
  end.

(** the keys of a mapping, in order *)
Definition keys (d : pydict) : list string := map fst d.

(** a day of the calendar, in the years 1 to 9999 *)
Definition calendar_date (d : Database.datetime) : bool :=
  ((1 <=? Database.year d) && (Database.year d <=? 9999)
   && (1 <=? Database.month d) && (Database.month d <=? 12)
   && (1 <=? Database.day d)
   && (Database.day d <=? Database.days_in_month (Database.year d)
                                                 (Database.month d)))%Z.

(** [strptime] reads back the two digits of month [m] and day [d] *)
Definition reads_back (m d : nat) : bool :=
  match Database.first_day
          (Database.month_matches
             [Intake.digit_char (Z.of_nat m / 10);
              Intake.digit_char (Z.of_nat m mod 10); "-"%char;
              Intake.digit_char (Z.of_nat d / 10);
              Intake.digit_char (Z.of_nat d mod 10)]) with
  | Some (m', d', []) => ((m' =? Z.of_nat m) && (d' =? Z.of_nat d))%Z
  | _ => false
  end.

(** the head count that [summarize] reads, when the document has one,
    is a value Python takes for true *)
Definition head_count_set (d : pydict) : bool :=
  match lookup d "employees_count" with
  | Some v => truthy v
  | None =>
      match lookup d "employees" with
      | Some v => truthy v
      | None => true
      end
  end.

End Shapes.

(* ===================================================================== *)
(** ** Properties *)
(* ===================================================================== *)

Import PyVal.

Ltac str_cases a b :=
  let E := fresh "E" in
  destruct (String.eqb a b) eqn:E;
  [apply String.eqb_eq in E | apply String.eqb_neq in E].

(** *** Dictionaries *)


Lemma lookup_set_other (d : pydict) k k' v :
  k <> k' -> lookup (set d k v) k' = lookup d k'.
Proof.
  intros Hne. induction d as [|[k0 v0] d IH]; simpl.
  - assert (String.eqb k' k = false) as -> by (apply String.eqb_neq; congruence).
    reflexivity.
  - str_cases k k0; simpl.
    + subst k0.
      assert (String.eqb k' k = false) as -> by (apply String.eqb_neq; congruence).
      reflexivity.
    + now rewrite IH.
Qed.

Lemma get_set_other (d : pydict) k k' v :
  k <> k' -> get (set d k v) k' = get d k'.
Proof. intros H. unfold get. now rewrite lookup_set_other. Qed.

Lemma has_key_set_other (d : pydict) k k' v :
  k <> k' -> has_key (set d k v) k' = has_key d k'.
Proof. intros H. unfold has_key. now rewrite lookup_set_other. Qed.


(** *** The loop of [summarize] *)

Section SummarizeLoop.
Import ClientsSummary.

Lemma fold_visit (contents : list file_content) (a : accum) :
  let recs := Spec.classified_of contents in
  let b := fold_left visit contents a in
  industries b = industries a ++ Spec.somes (map extract_industry recs)
  /\ employee_counts b
     = employee_counts a ++ Spec.somes (map extract_employees recs)
  /\ challenges b = challenges a ++ List.concat (map extract_challenges recs)
  /\ total_clients b = total_clients a + List.length recs.
Proof.
  revert a. induction contents as [|c contents IH]; intros a.
  - simpl. rewrite !app_nil_r. auto with arith.
  - destruct c as [v|]; [|apply IH].
    destruct v; try apply IH.
    cbn [fold_left visit Spec.classified_of].
    destruct (is_client_record (VDict d)) eqn:Hc; cbn [negb]; [|apply IH].
    specialize (IH {| industries :=
                        match extract_industry d with
                        | Some ind => industries a ++ [ind]
                        | None => industries a
                        end;
                      employee_counts :=
                        match extract_employees d with
                        | Some emp => employee_counts a ++ [emp]
                        | None => employee_counts a
                        end;
                      challenges := challenges a ++ extract_challenges d;
                      total_clients := S (total_clients a) |}).
    cbn [industries employee_counts challenges total_clients] in IH.
    destruct IH as (Hi & He & Hch & Ht).
    cbn [map Spec.somes List.concat List.length].
    repeat split.
    + rewrite Hi. destruct (extract_industry d); simpl;
        [now rewrite <- app_assoc | reflexivity].
    + rewrite He. destruct (extract_employees d); simpl;
        [now rewrite <- app_assoc | reflexivity].
    + rewrite Hch. now rewrite <- app_assoc.
    + rewrite Ht. lia.
Qed.

Lemma summarize_total folder :
  total (summarize folder) = List.length (Spec.classified folder).
Proof.
  unfold summarize, finish, Spec.classified; simpl.
  now destruct (fold_visit (glob_json folder) accum0) as (_ & _ & _ & ->).
Qed.

Lemma summarize_industry folder :
  most_common_industry (summarize folder)
  = most_common_of (Spec.somes (map extract_industry (Spec.classified folder))).
Proof.
  unfold summarize, finish, Spec.classified; simpl.
  now destruct (fold_visit (glob_json folder) accum0) as (-> & _).
Qed.

Lemma summarize_average folder :
  avg_employees (summarize folder)
  = average_of (Spec.somes (map extract_employees (Spec.classified folder))).
Proof.
  unfold summarize, finish, Spec.classified; simpl.
  now destruct (fold_visit (glob_json folder) accum0) as (_ & -> & _).
Qed.

Lemma summarize_challenges folder :
  dedup_challenges (summarize folder)
  = dedup_loop (List.concat (map extract_challenges (Spec.classified folder))) [] [].
Proof.
  unfold summarize, finish, Spec.classified; simpl.
  now destruct (fold_visit (glob_json folder) accum0) as (_ & _ & -> & _).
Qed.

End SummarizeLoop.

(** *** Order-preserving deduplication *)

Lemma existsb_eqb_In (c : string) (l : list string) :
  existsb (String.eqb c) l = true <-> In c l.
Proof.
  rewrite existsb_exists. split.
  - intros (x & Hin & E). apply String.eqb_eq in E. now subst.
  - intros H. exists c. split; [assumption | apply String.eqb_refl].
Qed.

Lemma existsb_eqb_app (c : string) (l1 l2 : list string) :
  existsb (String.eqb c) (l1 ++ l2)
  = existsb (String.eqb c) l1 || existsb (String.eqb c) l2.
Proof. apply existsb_app. Qed.

(** the code's [seen] set and the emitted list hold the same values *)
Lemma dedup_loop_emit (cs seen out : list string) :
  (forall c, existsb (String.eqb c) seen = existsb (String.eqb c) out) ->
  ClientsSummary.dedup_loop cs seen out = fold_left Spec.emit cs out.
Proof.
  revert seen out. induction cs as [|c cs IH]; intros seen out Hsame; simpl.
  - reflexivity.
  - unfold Spec.emit at 2. rewrite <- Hsame.
    destruct (existsb (String.eqb c) seen) eqn:E.
    + now apply IH.
    + apply IH. intros c'. simpl. rewrite existsb_eqb_app. simpl.
      rewrite Hsame, orb_false_r. apply orb_comm.
Qed.

Lemma fold_emit_In (l out : list string) (c : string) :
  In c (fold_left Spec.emit l out) <-> In c out \/ In c l.
Proof.
  revert out. induction l as [|x l IH]; intros out; simpl.
  - tauto.
  - rewrite IH. unfold Spec.emit.
    destruct (existsb (String.eqb x) out) eqn:E.
    + apply existsb_eqb_In in E. split; [tauto|].
      intros [H|[H|H]]; subst; auto.
    + rewrite in_app_iff. simpl. tauto.
Qed.

Lemma fold_emit_NoDup (l out : list string) :
  NoDup out -> NoDup (fold_left Spec.emit l out).
Proof.
  revert out. induction l as [|x l IH]; intros out H; simpl.
  - assumption.
  - apply IH. unfold Spec.emit.
    destruct (existsb (String.eqb x) out) eqn:E; [assumption|].
    apply NoDup_app; [assumption | repeat constructor; auto |].
    intros a Ha [Hx|[]]. subst a.
    apply existsb_eqb_In in Ha. congruence.
Qed.

(** *** [Counter] and [most_common(1)] *)

Section CounterFacts.
Import ClientsSummary.

Lemma count_snoc_same x l : Spec.count x (l ++ [x]) = S (Spec.count x l).
Proof.
  unfold Spec.count. rewrite count_occ_app. simpl.
  destruct (string_dec x x); [lia | congruence].
Qed.

Lemma count_snoc_other x y l : x <> y -> Spec.count y (l ++ [x]) = Spec.count y l.
Proof.
  intros H. unfold Spec.count. rewrite count_occ_app. simpl.
  destruct (string_dec x y); [congruence | lia].
Qed.

Lemma count_notin x l : ~ In x l -> Spec.count x l = 0.
Proof. intros H. now apply count_occ_not_In. Qed.

Lemma dedup_snoc l x : Spec.dedup (l ++ [x]) = Spec.emit (Spec.dedup l) x.
Proof. unfold Spec.dedup. now rewrite fold_left_app. Qed.

Lemma dedup_In c l : In c (Spec.dedup l) <-> In c l.
Proof. unfold Spec.dedup. rewrite fold_emit_In. simpl. tauto. Qed.

Lemma dedup_NoDup l : NoDup (Spec.dedup l).
Proof. apply fold_emit_NoDup. constructor. Qed.

(** counting one more [x] when [x] already has an entry *)
Lemma counter_incr_known keys l x :
  NoDup keys -> In x keys ->
  counter_incr (map (fun y => (y, Spec.count y l)) keys) x
  = map (fun y => (y, Spec.count y (l ++ [x]))) keys.
Proof.
  induction keys as [|k keys IH]; intros Hnd Hin; [contradiction|].
  inversion Hnd as [|? ? Hk Hnd']; subst. simpl.
  str_cases x k.
  - subst k. rewrite count_snoc_same. f_equal.
    apply map_ext_in. intros y Hy.
    rewrite count_snoc_other; [reflexivity | intros ->; contradiction].
  - destruct Hin as [->|Hin]; [congruence|].
    rewrite IH by assumption. now rewrite count_snoc_other by congruence.
Qed.

(** counting the first [x] *)
Lemma counter_incr_new keys l x :
  ~ In x keys ->
  counter_incr (map (fun y => (y, Spec.count y l)) keys) x
  = map (fun y => (y, Spec.count y (l ++ [x]))) keys ++ [(x, 1)].
Proof.
  induction keys as [|k keys IH]; intros Hin; simpl; [reflexivity|].
  str_cases x k.
  - subst. exfalso. apply Hin. now left.
  - rewrite IH by (intros H; apply Hin; now right).
    now rewrite count_snoc_other by congruence.
Qed.

(** a counter lists the distinct values in the order they were first
    met, each with its number of occurrences *)
Lemma Counter_spec l :
  Counter l = map (fun y => (y, Spec.count y l)) (Spec.dedup l).
Proof.
  induction l as [|x l IH] using rev_ind; [reflexivity|].
  unfold Counter in *. rewrite fold_left_app. simpl. rewrite IH.
  rewrite dedup_snoc. unfold Spec.emit.
  destruct (existsb (String.eqb x) (Spec.dedup l)) eqn:E.
  - apply existsb_eqb_In in E.
    apply counter_incr_known; [apply dedup_NoDup | assumption].
  - assert (Hn : ~ In x (Spec.dedup l)).
    { intros H. apply existsb_eqb_In in H. congruence. }
    rewrite counter_incr_new by assumption.
    rewrite map_app. simpl. rewrite count_snoc_same.
    rewrite count_notin; [reflexivity|]. now rewrite <- dedup_In.
Qed.

(** [max] returns the first of the items with the greatest count *)
Lemma max_from_first items : forall best,
  exists pre post,
    best :: items = pre ++ max_from best items :: post
    /\ (forall it, In it pre -> snd it < snd (max_from best items))
    /\ (forall it, In it post -> snd it <= snd (max_from best items)).
Proof.
  induction items as [|it items IH]; intros best; simpl.
  - exists [], []. simpl. repeat split; intros ? [].
  - destruct (snd best <? snd it) eqn:E.
    + apply Nat.ltb_lt in E.
      destruct (IH it) as (pre & post & Heq & Hpre & Hpost).
      exists (best :: pre), post. rewrite Heq.
      split; [reflexivity|]. split; [|assumption].
      intros x [<-|Hx]; [|now apply Hpre].
      destruct pre as [|p pre]; simpl in Heq; injection Heq as <- _.
      * assumption.
      * specialize (Hpre it (or_introl eq_refl)). lia.
    + apply Nat.ltb_ge in E.
      destruct (IH best) as (pre & post & Heq & Hpre & Hpost).
      destruct pre as [|p pre]; simpl in Heq; injection Heq as Hb Hrest.
      * exists [], (it :: items). simpl. rewrite <- Hb.
        split; [reflexivity|]. split; [intros ? []|].
        intros x [<-|Hx]; [assumption|].
        rewrite Hb. apply Hpost. rewrite <- Hrest. assumption.
      * subst p. exists (best :: it :: pre), post.
        split; [simpl; do 2 f_equal; exact Hrest|]. split; [|assumption].
        intros x [<-|[<-|Hx]].
        -- apply Hpre. now left.
        -- specialize (Hpre best (or_introl eq_refl)). lia.
        -- apply Hpre. now right.
Qed.

(** where a value stands among the distinct values tells what was met
    before its first occurrence *)
Lemma dedup_split l : forall k1 v k2,
  Spec.dedup l = k1 ++ v :: k2 ->
  exists l1 l2,
    l = l1 ++ v :: l2 /\ ~ In v l1 /\ forall w, In w l1 -> In w k1.
Proof.
  induction l as [|x l IH] using rev_ind; intros k1 v k2 H.
  - destruct k1; discriminate.
  - rewrite dedup_snoc in H. unfold Spec.emit in H.
    destruct (existsb (String.eqb x) (Spec.dedup l)) eqn:E.
    + destruct (IH _ _ _ H) as (l1 & l2 & -> & Hn & Hsub).
      exists l1, (l2 ++ [x]). rewrite <- app_assoc. simpl. auto.
    + assert (Hx : ~ In x l).
      { rewrite <- dedup_In. intros Hin. apply existsb_eqb_In in Hin.
        congruence. }
      destruct k2 as [|z k2] using rev_ind.
      * apply app_inj_tail in H. destruct H as [Hk ->].
        exists l, []. repeat split; auto.
        intros w Hw. rewrite <- Hk. now apply dedup_In.
      * clear IHk2.
        change (k1 ++ v :: k2 ++ [z]) with (k1 ++ (v :: k2) ++ [z]) in H.
        rewrite app_assoc in H.
        apply app_inj_tail in H. destruct H as [Hk _].
        destruct (IH _ _ _ Hk) as (l1 & l2 & -> & Hn & Hsub).
        exists l1, (l2 ++ [x]). rewrite <- app_assoc. simpl. auto.
Qed.

Lemma most_common_of_nil : most_common_of [] = None.
Proof. reflexivity. Qed.

Lemma most_common_of_first (inds : list string) :
  inds <> [] ->
  exists v, most_common_of inds = Some v
            /\ Spec.first_among_most_frequent inds v.
Proof.
  intros Hne.
  assert (Hmc : most_common_of inds
                = option_map fst (hd_error (most_common_1 (Counter inds)))).
  { destruct inds; [congruence | reflexivity]. }
  rewrite Hmc, Counter_spec.
  destruct (Spec.dedup inds) as [|k keys] eqn:Hd.
  { destruct inds as [|x inds]; [congruence|].
    assert (In x (Spec.dedup (x :: inds))) by (apply dedup_In; now left).
    rewrite Hd in H. contradiction. }
  cbn [map most_common_1 hd_error option_map].
  set (g := fun y => (y, Spec.count y inds)).
  destruct (max_from_first (map g keys) (g k))
    as (pre & post & Heq & Hpre & Hpost).
  set (r := max_from (g k) (map g keys)) in *.
  exists (fst r). split; [reflexivity|].
  assert (Hall : forall it, In it (pre ++ r :: post) ->
                            it = g (fst it) /\ In (fst it) inds).
  { intros it Hit. rewrite <- Heq in Hit.
    change (g k :: map g keys) with (map g (k :: keys)) in Hit.
    apply in_map_iff in Hit. destruct Hit as (y & <- & Hy).
    split; [reflexivity|]. apply dedup_In. now rewrite Hd. }
  assert (Hr : snd r = Spec.count (fst r) inds).
  { destruct (Hall r) as [E _]; [apply in_elt|]. now rewrite E at 1. }
  assert (Hkeys : Spec.dedup inds = map fst pre ++ fst r :: map fst post).
  { rewrite Hd. change (k :: keys) with (map fst (map g (k :: keys))) at 1
      || (transitivity (map fst (map g (k :: keys)));
          [rewrite map_map; simpl; now rewrite map_id|]).
    change (map g (k :: keys)) with (g k :: map g keys).
    rewrite Heq, map_app. reflexivity. }
  split.
  - intros w. destruct (in_dec string_dec w inds) as [Hw|Hw].
    + apply dedup_In in Hw. rewrite Hkeys in Hw.
      apply in_app_or in Hw. rewrite <- Hr.
      destruct Hw as [Hw|[Hw|Hw]].
      * apply in_map_iff in Hw. destruct Hw as (it & <- & Hit).
        specialize (Hpre it Hit).
        destruct (Hall it) as [E _]; [apply in_or_app; now left|].
        rewrite E in Hpre. simpl in Hpre. lia.
      * subst w. lia.
      * apply in_map_iff in Hw. destruct Hw as (it & <- & Hit).
        specialize (Hpost it Hit).
        destruct (Hall it) as [E _];
          [apply in_or_app; right; now right|].
        rewrite E in Hpost. simpl in Hpost. lia.
    + rewrite count_notin by assumption. lia.
  - destruct (dedup_split inds _ _ _ Hkeys) as (l1 & l2 & Hl & Hn & Hsub).
    exists l1, l2. repeat split; auto.
    intros w Hw. apply Hsub in Hw.
    apply in_map_iff in Hw. destruct Hw as (it & <- & Hit).
    specialize (Hpre it Hit). rewrite <- Hr.
    destruct (Hall it) as [E _]; [apply in_or_app; now left|].
    rewrite E in Hpre. simpl in Hpre. exact Hpre.
Qed.

(** the characterisation names one value only *)
Lemma first_among_most_frequent_unique inds v w :
  Spec.first_among_most_frequent inds v ->
  Spec.first_among_most_frequent inds w -> v = w.
Proof.
  intros (Hv & l1 & l2 & E1 & N1 & B1) (Hw & m1 & m2 & E2 & N2 & B2).
  rewrite E1 in E2. apply app_eq_app in E2.
  destruct E2 as (l & [[-> E]|[-> E]]).
  - destruct l as [|x l]; simpl in E; injection E as -> E'; [reflexivity|].
    exfalso. specialize (B1 x). specialize (Hw v).
    assert (In x (m1 ++ x :: l)) as Hin by apply in_elt.
    apply B1 in Hin. lia.
  - destruct l as [|x l]; simpl in E; injection E as -> E'; [reflexivity|].
    exfalso. specialize (B2 x). specialize (Hv w).
    assert (In x (l1 ++ x :: l)) as Hin by apply in_elt.
    apply B2 in Hin. lia.
Qed.

End CounterFacts.

(* ===================================================================== *)
(** ** The aggregate *)
(* ===================================================================== *)

(** the fallback summary of [clients_menu.py] counts and picks like
    [Counter(...).most_common(1)] *)
Lemma fallback_most_common_agrees (py_repr : pyval -> string) rows :
  ClientsMenu.fallback_most_common py_repr rows
  = ClientsSummary.most_common_of
      (filter (fun ind => negb (String.eqb ind ""))
         (map (fun r => PyStr.strip
                          (ClientsMenu.py_str py_repr
                             (por (ClientsMenu.row_industry r) (VStr ""))))
              rows)).
Proof.
  unfold ClientsMenu.fallback_most_common.
  set (texts := filter _ _).
  assert (H : forall acc, ClientsMenu.industry_counts py_repr rows acc
                          = fold_left ClientsSummary.counter_incr texts acc).
  { subst texts. induction rows as [|r rows IH]; intros acc; simpl.
    - reflexivity.
    - destruct (negb (String.eqb _ "")); simpl; apply IH. }
  rewrite H. fold (ClientsSummary.Counter texts). clearbody texts. clear H.
  destruct texts as [|t ts]; [reflexivity|].
  unfold ClientsSummary.most_common_of.
  destruct (ClientsSummary.Counter (t :: ts)) as [|it rest] eqn:Ec.
  - rewrite Counter_spec in Ec. apply map_eq_nil in Ec.
    assert (In t (Spec.dedup (t :: ts))) as Hin by (apply dedup_In; now left).
    rewrite Ec in Hin. contradiction.
  - reflexivity.
Qed.

(** C1 (amended). For every folder, [mostCommonIndustry] is absent when no
    classified record carries an industry, and otherwise is the industry
    value that occurs most often among the classified records, a tie
    going to the tied value that is met first in record-iteration order
    (every value met before its first occurrence occurs strictly less
    often); for industries met in the order Retail, Tech, Retail, Tech
    the result is Retail. *)
Theorem C1_most_common_industry_first_met :
  (forall folder,
      let inds := Spec.somes (map ClientsSummary.extract_industry
                                  (Spec.classified folder)) in
      match ClientsSummary.most_common_industry
              (ClientsSummary.summarize folder) with
      | None => inds = []
      | Some v => Spec.first_among_most_frequent inds v
      end)
  /\ ClientsSummary.most_common_industry
       (ClientsSummary.summarize Examples.retail_tech_folder) = Some "Retail".
Proof.
  split; [|reflexivity].
  intros folder inds. rewrite summarize_industry. fold inds.
  destruct inds as [|i inds'] eqn:E; [reflexivity|].
  destruct (most_common_of_first (i :: inds')) as (v & -> & Hv);
    [discriminate | exact Hv].
Qed.

(** C1 as worded fails: with industries met in the order Tech, Retail,
    Retail, Tech the first value to reach the maximum count of 2 is
    Retail, and the code answers Tech. *)
Lemma C1_first_to_reach_max_differs :
  Spec.somes (map ClientsSummary.extract_industry
                  (Spec.classified Examples.tech_retail_folder))
  = ["Tech"; "Retail"; "Retail"; "Tech"]
  /\ Spec.first_to_reach_max ["Tech"; "Retail"; "Retail"; "Tech"] = Some "Retail"
  /\ ClientsSummary.most_common_industry
       (ClientsSummary.summarize Examples.tech_retail_folder) = Some "Tech".
Proof. repeat split. Qed.

(** *** Classification *)

Lemma truthy_get_iff (d : pydict) k :
  truthy (get d k) = true <-> Spec.present_nonempty d k.
Proof.
  unfold get, Spec.present_nonempty. destruct (lookup d k) as [v|].
  - split; [intros H; now exists v | intros (v' & [= <-] & H); exact H].
  - split; [discriminate | intros (v' & [=] & _)].
Qed.

Lemma classified_of_accepted contents :
  Forall (fun d => ClientsSummary.is_client_record (VDict d) = true)
         (Spec.classified_of contents)
  /\ List.length (Spec.classified_of contents)
     = List.length (filter Spec.accepted contents).
Proof.
  induction contents as [|c contents [IHf IHl]]; [split; [constructor | reflexivity]|].
  destruct c as [v|]; [|exact (conj IHf IHl)].
  destruct v; try exact (conj IHf IHl).
  cbn [Spec.classified_of filter Spec.accepted].
  destruct (ClientsSummary.is_client_record (VDict d)) eqn:E.
  - split; [now constructor | simpl; now rewrite IHl].
  - exact (conj IHf IHl).
Qed.

Lemma summarize_aggregate folder :
  ClientsSummary.summarize folder
  = ClientsSummary.finish (Spec.aggregate (Spec.classified folder)).
Proof.
  unfold ClientsSummary.summarize, Spec.classified, Spec.aggregate.
  destruct (fold_visit (ClientsSummary.glob_json folder) ClientsSummary.accum0)
    as (Hi & He & Hc & Ht).
  simpl in Hi, He, Hc, Ht.
  destruct (fold_left ClientsSummary.visit _ _); simpl in *.
  now subst.
Qed.

(** C2 (amended). A raw document is accepted as a client record if and
    only if it is a mapping in which ([name] and [business_name] are both
    present and non-empty) or ([business_name] is present and non-empty
    and at least one of [employees_count] or [industry] is present); both
    copies of the classifier agree; the aggregate is computed from the
    accepted documents alone, and [totalCount] is the number of files that
    parse and are accepted. *)
Theorem C2_classifier_membership :
  (forall data,
      ClientsSummary.is_client_record data = true <->
      exists d, data = VDict d
        /\ ((Spec.present_nonempty d "name"
             /\ Spec.present_nonempty d "business_name")
            \/ (Spec.present_nonempty d "business_name"
                /\ (Spec.present d "employees_count"
                    \/ Spec.present d "industry"))))
  /\ (forall data,
         ClientsMenu.is_client_record data = ClientsSummary.is_client_record data)
  /\ (forall folder,
         ClientsSummary.summarize folder
         = ClientsSummary.finish (Spec.aggregate (Spec.classified folder))
         /\ Forall (fun d => ClientsSummary.is_client_record (VDict d) = true)
                   (Spec.classified folder)
         /\ ClientsSummary.total (ClientsSummary.summarize folder)
            = List.length (filter Spec.accepted (ClientsSummary.glob_json folder))).
Proof.
  split; [|split].
  - intros data. split.
    + destruct data; try discriminate. intros H. exists d. split; [reflexivity|].
      unfold ClientsSummary.is_client_record in H.
      rewrite <- !truthy_get_iff. unfold Spec.present.
      destruct (truthy (get d "name")), (truthy (get d "business_name")),
        (has_key d "employees_count"), (has_key d "industry");
        simpl in H; try discriminate; auto.
    + intros (d & -> & H). unfold ClientsSummary.is_client_record.
      rewrite <- !truthy_get_iff in H. unfold Spec.present in H.
      destruct H as [[-> ->]|[-> [->| ->]]];
        destruct (truthy (get d "name")), (has_key d "employees_count"),
          (has_key d "industry"); reflexivity.
  - intros data. reflexivity.
  - intros folder. split; [apply summarize_aggregate|]. split.
    + apply classified_of_accepted.
    + rewrite summarize_total. apply classified_of_accepted.
Qed.

(** C2 as worded fails: a document whose [business_name] is present but
    empty, next to an [industry], satisfies the worded rule and is
    rejected by the classifier. *)
Lemma C2_blank_business_name_rejected :
  Spec.valid_client_record Examples.blank_business
  /\ ClientsSummary.is_client_record (VDict Examples.blank_business) = false
  /\ ClientsMenu.is_client_record (VDict Examples.blank_business) = false.
Proof.
  split; [|split; reflexivity].
  right. split; [reflexivity | right; reflexivity].
Qed.

(** *** Field extraction *)

Lemma extract_field_first_present (d : pydict) (keys : list string) :
  ClientsMenu.extract_field d keys
  = match Spec.first_present d keys with Some v => v | None => VNone end.
Proof.
  induction keys as [|k keys IH]; simpl; [reflexivity|].
  destruct (lookup d k) as [v|]; [|exact IH].
  destruct (is_none_or_empty v); simpl; [exact IH | reflexivity].
Qed.

(** the first key that matches decides, whatever follows it *)
Lemma first_present_first_match (d : pydict) ks1 k ks2 v :
  Spec.first_present d ks1 = None ->
  lookup d k = Some v -> is_none_or_empty v = false ->
  Spec.first_present d (ks1 ++ k :: ks2) = Some v.
Proof.
  intros Hnone Hk Hv. induction ks1 as [|k1 ks1 IH]; simpl in *.
  - now rewrite Hk, Hv.
  - destruct (lookup d k1) as [v1|]; [|now apply IH].
    destruct (is_none_or_empty v1); [now apply IH | discriminate].
Qed.

Lemma first_present_set_other (d : pydict) keys k v :
  ~ In k keys ->
  Spec.first_present (set d k v) keys = Spec.first_present d keys.
Proof.
  induction keys as [|k' keys IH]; intros Hn; simpl; [reflexivity|].
  rewrite lookup_set_other by (intros ->; apply Hn; now left).
  rewrite IH by (intros H; apply Hn; now right). reflexivity.
Qed.

(** C3 (amended). For every raw document the employee value is resolved
    from the keys [employees_count] and [employees] only, in that order;
    [num_employees] is never consulted.  The field extractor takes, for
    whatever key list, the first key whose value is present and not
    empty/None and yields None when no key matches, and the client table
    calls it with [employees_count], [employees]; the aggregator's
    [extract_employees] takes the first of the two keys that is present at
    all and converts its value with [float], absent when the conversion
    fails or neither key is present. *)
Theorem C3_employee_count_two_keys :
  (forall d keys,
      ClientsMenu.extract_field d keys
      = match Spec.first_present d keys with Some v => v | None => VNone end)
  /\ (forall file d,
         ClientsMenu.row_employees (ClientsMenu.make_row file d)
         = por (ClientsMenu.extract_field d ["employees_count"; "employees"])
               (VStr ""))
  /\ (forall d,
         ClientsSummary.extract_employees d
         = match lookup d "employees_count", lookup d "employees" with
           | Some v, _ => to_float v
           | None, Some v => to_float v
           | None, None => None
           end)
  /\ (forall d v,
         ClientsMenu.extract_field (set d "num_employees" v)
                                   ["employees_count"; "employees"]
         = ClientsMenu.extract_field d ["employees_count"; "employees"]
         /\ ClientsSummary.extract_employees (set d "num_employees" v)
            = ClientsSummary.extract_employees d).
Proof.
  split; [exact extract_field_first_present|].
  split; [reflexivity|].
  split.
  - intros d. unfold ClientsSummary.extract_employees.
    destruct (lookup d "employees_count"), (lookup d "employees"); reflexivity.
  - intros d v. split.
    + rewrite !extract_field_first_present.
      rewrite first_present_set_other; [reflexivity|].
      simpl. intros [H|[H|[]]]; discriminate.
    + unfold ClientsSummary.extract_employees.
      rewrite !lookup_set_other by discriminate. reflexivity.
Qed.

(** C3 as worded fails: a document that carries its head count under
    [num_employees] resolves to 12 by the worded priority list and to
    nothing in the code. *)
Lemma C3_num_employees_not_consulted :
  Spec.first_present Examples.num_employees_only Spec.employee_keys
  = Some (VInt 12)
  /\ ClientsMenu.extract_field Examples.num_employees_only
                               ["employees_count"; "employees"] = VNone
  /\ ClientsSummary.extract_employees Examples.num_employees_only = None.
Proof. repeat split. Qed.

(** *** The average *)

(** on finite values the model's sum is the sum of the rationals *)
Lemma sum_finite (qs : list Q) (acc : Q) :
  exists q, fold_left PyFloat.add (map Fin qs) (Fin acc) = Fin q
            /\ Qeq q (fold_left Qplus qs acc).
Proof.
  revert acc. induction qs as [|x qs IH]; intros acc; simpl.
  - exists acc. split; [reflexivity | apply Qeq_refl].
  - destruct (IH (Qred (acc + x)%Q)) as (q & Hq & Heq).
    exists q. split; [exact Hq|].
    rewrite Heq. clear.
    assert (G : forall a b, Qeq a b -> Qeq (fold_left Qplus qs a) (fold_left Qplus qs b)).
    { induction qs as [|y qs IH]; intros a b Hab; simpl; [exact Hab|].
      apply IH. now rewrite Hab. }
    apply G. apply Qred_correct.
Qed.

(** on finite values the model's mean is the sum of the rationals divided
    by their number *)
Lemma mean_finite (qs : list Q) :
  qs <> [] ->
  exists q, Spec.mean (map Fin qs) = Some (Fin q)
            /\ Qeq q (fold_left Qplus qs 0%Q
                      / inject_Z (Z.of_nat (List.length qs)))%Q.
Proof.
  intros Hne. destruct (sum_finite qs 0%Q) as (q & Hq & Heq).
  exists (Qred (q / inject_Z (Z.of_nat (List.length qs)))%Q). split.
  - destruct qs as [|x qs]; [congruence|].
    unfold Spec.mean, PyFloat.sum, PyFloat.of_Z.
    change (inject_Z 0) with 0%Q.
    cbn [map] in *. rewrite Hq. cbn [PyFloat.div_nat List.length].
    now rewrite length_map.
  - rewrite Qred_correct. now rewrite Heq.
Qed.



(** *** Challenges *)

Lemma challenge_items_stripped (l : list pyval) :
  ClientsSummary.challenge_items l = Spec.stripped_nonblank l.
Proof.
  unfold Spec.stripped_nonblank.
  induction l as [|v l IH]; [reflexivity|].
  destruct v; try exact IH. simpl.
  destruct (negb (String.eqb (PyStr.strip s) "")); simpl; now rewrite IH.
Qed.

(** C5 (amended). For every record set, [allChallenges] is the
    order-preserving deduplication (first occurrence wins, a value equal
    to one already emitted is dropped) of the concatenation, in
    record-iteration order, of each record's challenges, where a record's
    challenges are its [main_challenge] value followed by the items of its
    [challenges] list, keeping the strings that are not blank, each
    stripped of surrounding whitespace; a [main_challenges] key is never
    read. *)
Theorem C5_all_challenges_dedup :
  (forall folder,
      let every := List.concat (map ClientsSummary.extract_challenges
                                    (Spec.classified folder)) in
      let out := ClientsSummary.dedup_challenges
                   (ClientsSummary.summarize folder) in
      out = Spec.dedup every
      /\ NoDup out
      /\ (forall c, In c out <-> In c every))
  /\ (forall d,
         ClientsSummary.extract_challenges d
         = Spec.stripped_nonblank [get d "main_challenge"]
           ++ match get d "challenges" with
              | VList l => Spec.stripped_nonblank l
              | _ => []
              end)
  /\ (forall d v,
         ClientsSummary.extract_challenges (set d "main_challenges" v)
         = ClientsSummary.extract_challenges d).
Proof.
  split; [|split].
  - intros folder every out.
    assert (E : out = Spec.dedup every).
    { subst out. rewrite summarize_challenges.
      apply dedup_loop_emit. reflexivity. }
    rewrite E. split; [reflexivity|]. split.
    + apply dedup_NoDup.
    + intros c. apply dedup_In.
  - intros d. unfold ClientsSummary.extract_challenges.
    assert (E : match get d "main_challenge" with
                | VStr mc =>
                    if negb (String.eqb (PyStr.strip mc) "")
                    then [PyStr.strip mc] else []
                | _ => []
                end = Spec.stripped_nonblank [get d "main_challenge"]).
    { destruct (get d "main_challenge"); reflexivity. }
    rewrite E. destruct (get d "challenges"); rewrite ?app_nil_r; try reflexivity.
    now rewrite challenge_items_stripped.
  - intros d v. unfold ClientsSummary.extract_challenges.
    rewrite !get_set_other by discriminate. reflexivity.
Qed.

(** C5 as worded fails: a record whose challenges are listed under
    [main_challenges] contributes "Hiring" by the worded union and
    nothing in the code. *)
Lemma C5_main_challenges_ignored :
  Spec.dedup (List.concat (map Spec.main_challenges
                               (Spec.classified Examples.main_challenges_folder)))
  = ["Hiring"]
  /\ ClientsSummary.dedup_challenges
       (ClientsSummary.summarize Examples.main_challenges_folder) = [].
Proof. split; reflexivity. Qed.

(* ===================================================================== *)
(** ** The store *)
(* ===================================================================== *)

Import Database.

(** *** Orders *)

Lemma ltb_chars_asym (a : list ascii) : forall b,
  PyStr.ltb_chars a b = true -> PyStr.ltb_chars b a = false.
Proof.
  induction a as [|x a IH]; intros [|y b] H; simpl in *; try congruence.
  apply orb_true_iff in H. apply orb_false_iff.
  destruct H as [H|H].
  - apply Nat.ltb_lt in H. split.
    + apply Nat.ltb_ge. lia.
    + apply andb_false_iff. left. apply Nat.eqb_neq. lia.
  - apply andb_true_iff in H. destruct H as [E H]. apply Nat.eqb_eq in E.
    split.
    + apply Nat.ltb_ge. lia.
    + apply andb_false_iff. right. now apply IH.
Qed.

Lemma ltb_chars_between (c : list ascii) : forall a b,
  PyStr.ltb_chars c a = true ->
  PyStr.ltb_chars b a = true \/ PyStr.ltb_chars c b = true.
Proof.
  induction c as [|z c IH]; intros [|x a] [|y b] H; simpl in *;
    try discriminate; auto.
  apply orb_true_iff in H.
  destruct (lt_eq_lt_dec (nat_of_ascii y) (nat_of_ascii x)) as [[Hyx|Hyx]|Hyx].
  - left. apply orb_true_iff. left. now apply Nat.ltb_lt.
  - destruct H as [H|H].
    + right. apply orb_true_iff. left. apply Nat.ltb_lt in H.
      apply Nat.ltb_lt. lia.
    + apply andb_true_iff in H. destruct H as [E H]. apply Nat.eqb_eq in E.
      destruct (IH a b H) as [G|G].
      * left. apply orb_true_iff. right. rewrite G.
        rewrite andb_true_r. apply Nat.eqb_eq. lia.
      * right. apply orb_true_iff. right. rewrite G.
        rewrite andb_true_r. apply Nat.eqb_eq. lia.
  - right. apply orb_true_iff. left. apply Nat.ltb_lt.
    destruct H as [H|H].
    + apply Nat.ltb_lt in H. lia.
    + apply andb_true_iff in H. destruct H as [E _]. apply Nat.eqb_eq in E. lia.
Qed.

Lemma str_leb_total a b : PyStr.leb a b = true \/ PyStr.leb b a = true.
Proof.
  unfold PyStr.leb, PyStr.ltb.
  destruct (PyStr.ltb_chars (PyStr.chars b) (PyStr.chars a)) eqn:E; [|now left].
  right. now rewrite (ltb_chars_asym _ _ E).
Qed.

Lemma str_leb_trans a b c :
  PyStr.leb a b = true -> PyStr.leb b c = true -> PyStr.leb a c = true.
Proof.
  unfold PyStr.leb, PyStr.ltb. intros Hab Hbc.
  apply negb_true_iff in Hab, Hbc. apply negb_true_iff.
  destruct (PyStr.ltb_chars (PyStr.chars c) (PyStr.chars a)) eqn:E; [|reflexivity].
  destruct (ltb_chars_between _ _ (PyStr.chars b) E); congruence.
Qed.

Lemma datetime_ltb_iff a b :
  datetime_ltb a b = true <->
  (year a < year b
   \/ (year a = year b
       /\ (month a < month b \/ (month a = month b /\ day a < day b))))%Z.
Proof.
  unfold datetime_ltb.
  rewrite !orb_true_iff, !andb_true_iff, !orb_true_iff, !andb_true_iff,
    !Z.ltb_lt, !Z.eqb_eq.
  tauto.
Qed.

Lemma datetime_eqb_iff a b :
  datetime_eqb a b = true <->
  (year a = year b /\ month a = month b /\ day a = day b).
Proof.
  unfold datetime_eqb. rewrite !andb_true_iff, !Z.eqb_eq. tauto.
Qed.

Lemma datetime_eqb_eq a b : datetime_eqb a b = true <-> a = b.
Proof.
  rewrite datetime_eqb_iff. destruct a, b; simpl. split.
  - intros (-> & -> & ->). reflexivity.
  - intros [= -> -> ->]. auto.
Qed.

Lemma key_leb_iff k1 k2 :
  key_leb k1 k2 = true <->
  datetime_ltb (fst k1) (fst k2) = true
  \/ (fst k1 = fst k2 /\ PyStr.leb (snd k1) (snd k2) = true).
Proof.
  unfold key_leb. rewrite orb_true_iff, andb_true_iff, datetime_eqb_eq. tauto.
Qed.

Lemma key_leb_total k1 k2 : key_leb k1 k2 = true \/ key_leb k2 k1 = true.
Proof.
  rewrite !key_leb_iff, !datetime_ltb_iff.
  destruct k1 as [[y1 m1 d1] s1], k2 as [[y2 m2 d2] s2]; simpl.
  destruct (Z.lt_trichotomy y1 y2) as [H|[H|H]]; try lia.
  destruct (Z.lt_trichotomy m1 m2) as [H'|[H'|H']]; try lia.
  destruct (Z.lt_trichotomy d1 d2) as [H''|[H''|H'']]; try lia.
  subst. destruct (str_leb_total s1 s2); [left | right]; right; auto.
Qed.

Lemma key_leb_trans k1 k2 k3 :
  key_leb k1 k2 = true -> key_leb k2 k3 = true -> key_leb k1 k3 = true.
Proof.
  rewrite !key_leb_iff, !datetime_ltb_iff.
  destruct k1 as [[y1 m1 d1] s1], k2 as [[y2 m2 d2] s2],
    k3 as [[y3 m3 d3] s3]; simpl.
  intros [H12|[[= -> -> ->] L12]] [H23|[[= -> -> ->] L23]].
  - left. lia.
  - left. lia.
  - left. lia.
  - right. split; [reflexivity | eapply str_leb_trans; eassumption].
Qed.

(** *** The stable sort *)

Section SortBy.
Context {A : Type} (le : A -> A -> bool).
Hypothesis le_total : forall a b, le a b = true \/ le b a = true.
Hypothesis le_trans : forall a b c, le a b = true -> le b c = true -> le a c = true.

Lemma insert_by_perm x l : Permutation (insert_by le x l) (x :: l).
Proof.
  induction l as [|y l IH]; simpl; [reflexivity|].
  destruct (le x y); [reflexivity|].
  rewrite IH. apply perm_swap.
Qed.

Lemma sort_by_perm l : Permutation (sort_by le l) l.
Proof.
  induction l as [|x l IH]; simpl; [reflexivity|].
  rewrite insert_by_perm. now constructor.
Qed.

Lemma insert_by_sorted x l :
  StronglySorted (fun a b => le a b = true) l ->
  StronglySorted (fun a b => le a b = true) (insert_by le x l).
Proof.
  induction l as [|y l IH]; intros Hs; simpl.
  - repeat constructor.
  - inversion Hs as [|? ? Hs' Hall]; subst.
    destruct (le x y) eqn:E.
    + constructor; [assumption|]. constructor; [assumption|].
      eapply Forall_impl; [|exact Hall]. intros z Hz. eauto.
    + constructor; [now apply IH|].
      assert (Hyx : le y x = true) by (destruct (le_total x y); congruence).
      eapply Permutation_Forall; [symmetry; apply insert_by_perm|].
      now constructor.
Qed.

Lemma sort_by_sorted l : StronglySorted (fun a b => le a b = true) (sort_by le l).
Proof.
  induction l as [|x l IH]; simpl; [constructor | now apply insert_by_sorted].
Qed.

End SortBy.

Lemma list_clients_sorted self w : StronglySorted key_le (list_clients self w).
Proof.
  unfold list_clients. destruct (negb (isdir w (clients_dir self))); [constructor|].
  unfold sorted, key_le.
  apply (sort_by_sorted (fun a b => key_leb (sort_key a) (sort_key b))).
  - intros a b. apply key_leb_total.
  - intros a b c. apply key_leb_trans.
Qed.

Lemma list_clients_perm self w :
  Permutation (list_clients self w) (load_all w (_iter_client_files self w)).
Proof.
  unfold list_clients, _iter_client_files.
  destruct (negb (isdir w (clients_dir self))); [reflexivity|].
  apply sort_by_perm.
Qed.

(** the comprehension of [search_clients] keeps the order of the listing *)
Lemma filter_matching_sorted m l : forall l',
  filter_matching m l = Ok l' ->
  StronglySorted key_le l -> StronglySorted key_le l' /\ incl l' l.
Proof.
  induction l as [|r l IH]; intros l' H Hs; simpl in H.
  - injection H as <-. split; [constructor | apply incl_refl].
  - destruct (m r) as [keep|]; [|discriminate]. simpl in H.
    destruct (filter_matching m l) as [tail|]; [|discriminate]. simpl in H.
    injection H as <-.
    inversion Hs as [|? ? Hs' Hall]; subst.
    destruct (IH tail eq_refl Hs') as [Ht Hi].
    destruct keep.
    + split.
      * constructor; [assumption|].
        rewrite Forall_forall in *. intros x Hx. apply Hall, Hi, Hx.
      * intros x [<-|Hx]; [now left | right; now apply Hi].
    + split; [assumption | intros x Hx; right; now apply Hi].
Qed.

(** *** Files *)

Lemma find_put_same fl p c : find_file (put_file fl p c) p = Some c.
Proof.
  induction fl as [|[q c'] fl IH]; simpl.
  - now rewrite String.eqb_refl.
  - str_cases p q; simpl.
    + subst. now rewrite String.eqb_refl.
    + apply String.eqb_neq in E. now rewrite E.
Qed.

Lemma find_put_other fl p q c :
  q <> p -> find_file (put_file fl p c) q = find_file fl q.
Proof.
  intros Hne. induction fl as [|[p' c'] fl IH]; simpl.
  - apply String.eqb_neq in Hne. now rewrite Hne.
  - str_cases p p'; simpl.
    + subst p'. apply String.eqb_neq in Hne. now rewrite Hne.
    + now rewrite IH.
Qed.


Lemma load_json_found w p v :
  _load_json w p = Ok v ->
  String.eqb p "" = false /\ find_file (files w) p = Some (Text (JsonText v)).
Proof.
  unfold _load_json. destruct (String.eqb p ""); [discriminate|].
  destruct (find_file (files w) p) as [[[v'|]|]|]; try discriminate.
  now intros [= ->].
Qed.





(** *** Bulk loads *)

(** a file that is not JSON text yields no record, and the loop goes on *)
Lemma load_all_skips_bad_text w p rest :
  find_file (files w) p = Some (Text BadText) ->
  load_all w (p :: rest) = load_all w rest.
Proof.
  intros H. simpl. unfold _load_json. rewrite H.
  now destruct (String.eqb p "").
Qed.

(** a file that holds JSON text yields a record whatever its root is *)
Lemma load_all_keeps_any_root w p v rest :
  String.eqb p "" = false ->
  find_file (files w) p = Some (Text (JsonText v)) ->
  load_all w (p :: rest)
  = {| filename := OsPath.basename p; path := p; data := v |}
      :: load_all w rest.
Proof.
  intros Hp H. simpl. unfold _load_json. now rewrite Hp, H.
Qed.

(** [summarize] leaves out every file that does not hold an accepted
    mapping, whatever else the folder holds *)
Lemma summarize_skips folder1 name c folder2 :
  Spec.accepted c = false ->
  ClientsSummary.summarize (folder1 ++ (name, c) :: folder2)
  = ClientsSummary.summarize (folder1 ++ folder2).
Proof.
  intros H. unfold ClientsSummary.summarize, ClientsSummary.glob_json.
  rewrite !filter_app, !map_app, !fold_left_app. simpl.
  destruct (PyStr.endswith name ".json"); [|reflexivity].
  simpl. f_equal. f_equal.
  destruct c as [v|]; [|reflexivity]. simpl in *. now rewrite H.
Qed.

(** C7. During the bulk load of [list_clients] a file whose root is a
    list is not skipped: a record is emitted for it, and a later search
    by business name over the collection raises, where [summarize] leaves
    the same document out. *)
Lemma C7_list_root_is_listed :
  map (fun r => (filename r, data r))
      (list_clients Examples.db Examples.store_with_list_root)
  = [("beta.json", Examples.beta_doc);
     ("notes.json", VList [VInt 1; VInt 2]);
     ("acme-2025-11-16.json", Examples.acme_doc)]
  /\ search_clients Examples.db Examples.store_with_list_root
                    (Some "acme") None None
     = Raise AttributeError
  /\ ClientsSummary.total (ClientsSummary.summarize Examples.list_root_folder) = 2.
Proof. repeat split. Qed.

(** *** Dates and the order of the listing *)

Lemma search_clients_sorted self w cn ci cd l :
  search_clients self w cn ci cd = Ok l ->
  StronglySorted key_le l /\ incl l (list_clients self w).
Proof.
  unfold search_clients.
  destruct (negb (given cn || given ci
                  || match cd with Some _ => true | None => false end)).
  - intros [= <-]. split; [apply list_clients_sorted | apply incl_refl].
  - intros H. eapply filter_matching_sorted; [exact H|].
    apply list_clients_sorted.
Qed.

(** C8 (amended). A record's date is the last 10 characters before the
    extension parsed as YYYY-MM-DD provided the extension is [.json] and
    the name before it has at least 11 characters, and is absent
    otherwise, so "acme-2025-11-16.json" yields 2025-11-16 and
    "acme.json" yields absent; the listing is a permutation of the loaded
    records sorted ascending by (date, filename), a record without a date
    taking the minimum date and ties going by filename in code point
    order, and a search returns its matches in that same order. *)
Theorem C8_filename_date_and_listing_order :
  (forall r,
      date r
      = (let (name, ext) := OsPath.splitext (OsPath.basename (filename r)) in
         if String.eqb (PyStr.lower ext) ".json" && (11 <=? String.length name)
         then Spec.filename_date (filename r)
         else None))
  /\ date (Examples.named "acme-2025-11-16.json")
     = Some {| year := 2025; month := 11; day := 16 |}
  /\ date (Examples.named "acme.json") = None
  /\ (forall self w,
         StronglySorted key_le (list_clients self w)
         /\ Permutation (list_clients self w)
                        (load_all w (_iter_client_files self w)))
  /\ (forall a b,
         key_le a b <->
         datetime_ltb (fst (sort_key a)) (fst (sort_key b)) = true
         \/ (fst (sort_key a) = fst (sort_key b)
             /\ PyStr.leb (filename a) (filename b) = true))
  /\ (forall self w cn ci cd,
         match search_clients self w cn ci cd with
         | Ok l => StronglySorted key_le l /\ incl l (list_clients self w)
         | Raise _ => True
         end).
Proof.
  split; [|split; [reflexivity|split; [reflexivity|split; [|split]]]].
  - intros r. unfold date, Spec.filename_date.
    destruct (OsPath.splitext (OsPath.basename (filename r))) as [name ext].
    simpl. destruct (String.eqb (PyStr.lower ext) ".json"); simpl; reflexivity.
  - intros self w. split; [apply list_clients_sorted | apply list_clients_perm].
  - intros a b. unfold key_le. apply key_leb_iff.
  - intros self w cn ci cd.
    destruct (search_clients self w cn ci cd) as [l|] eqn:E; [|exact I].
    eapply search_clients_sorted. exact E.
Qed.

(** C8 as worded fails: the last 10 characters before the extension of
    "2025-11-16.json" parse as a date, and the record has none. *)
Lemma C8_ten_character_name_has_no_date :
  Spec.filename_date "2025-11-16.json"
  = Some {| year := 2025; month := 11; day := 16 |}
  /\ date (Examples.named "2025-11-16.json") = None.
Proof. split; reflexivity. Qed.

(** *** Updates *)



(** *** A missing store directory *)

Lemma missing_store_lists_nothing self w :
  isdir w (clients_dir self) = false ->
  list_clients self w = []
  /\ forall cn ci cd, search_clients self w cn ci cd = Ok [].
Proof.
  intros H.
  assert (L : list_clients self w = []) by (unfold list_clients; now rewrite H).
  split; [exact L|]. intros cn ci cd. unfold search_clients. rewrite L.
  now destruct (negb _).
Qed.

(** C10. Without the store directory the listing is empty and every
    search returns the empty sequence, but the CSV export to its default
    path raises [FileNotFoundError]: the empty branch opens the file
    without creating its directory. *)
Lemma C10_export_raises_without_store :
  isdir Examples.no_store (clients_dir Examples.db) = false
  /\ list_clients Examples.db Examples.no_store = []
  /\ search_clients Examples.db Examples.no_store (Some "acme") None None = Ok []
  /\ export_to_csv Examples.db Examples.no_store None
     = (Raise FileNotFoundError, Examples.no_store).
Proof. repeat split. Qed.


(* ===================================================================== *)
(** ** Further properties of the store *)
(* ===================================================================== *)

(** *** Strings and paths *)

Lemma chars_app (a b : string) :
  PyStr.chars (a ++ b)%string = PyStr.chars a ++ PyStr.chars b.
Proof. induction a as [|c a IH]; simpl; [reflexivity | now rewrite IH]. Qed.

Lemma of_chars_chars (s : string) : PyStr.of_chars (PyStr.chars s) = s.
Proof. apply string_of_list_ascii_of_string. Qed.

Lemma chars_of_chars (l : list ascii) : PyStr.chars (PyStr.of_chars l) = l.
Proof. apply list_ascii_of_string_of_list_ascii. Qed.

Lemma take_while_all {A} (p : A -> bool) (l : list A) :
  forallb p l = true -> OsPath.take_while p l = l.
Proof.
  induction l as [|x l IH]; simpl; [reflexivity|].
  intros H. apply andb_true_iff in H. destruct H as [-> H]. now rewrite IH.
Qed.

Lemma take_while_app_stop {A} (p : A -> bool) (l : list A) x rest :
  forallb p l = true -> p x = false ->
  OsPath.take_while p (l ++ x :: rest) = l.
Proof.
  induction l as [|y l IH]; simpl; intros Hl Hx.
  - now rewrite Hx.
  - apply andb_true_iff in Hl. destruct Hl as [-> Hl]. now rewrite IH.
Qed.

Lemma drop_while_app_stop {A} (p : A -> bool) (l : list A) x rest :
  forallb p l = true -> p x = false ->
  PyStr.drop_while p (l ++ x :: rest) = x :: rest.
Proof.
  induction l as [|y l IH]; simpl; intros Hl Hx.
  - now rewrite Hx.
  - apply andb_true_iff in Hl. destruct Hl as [-> Hl]. now rewrite IH.
Qed.

Lemma take_while_forall {A} (p : A -> bool) (l : list A) :
  forallb p (OsPath.take_while p l) = true.
Proof.
  induction l as [|x l IH]; simpl; [reflexivity|].
  destruct (p x) eqn:E; simpl; [now rewrite E | reflexivity].
Qed.

Lemma forallb_rev {A} (p : A -> bool) (l : list A) :
  forallb p (rev l) = forallb p l.
Proof.
  induction l as [|x l IH]; simpl; [reflexivity|].
  rewrite forallb_app, IH. simpl. rewrite andb_true_r. apply andb_comm.
Qed.

(** a base name holds no separator *)
Lemma basename_sep_free (p : string) : Shapes.sep_free (OsPath.basename p) = true.
Proof.
  unfold Shapes.sep_free, OsPath.basename.
  rewrite chars_of_chars, forallb_rev. apply take_while_forall.
Qed.

Lemma basename_of_sep_free (n : string) :
  Shapes.sep_free n = true -> OsPath.basename n = n.
Proof.
  unfold Shapes.sep_free, OsPath.basename. intros H.
  rewrite take_while_all by now rewrite forallb_rev.
  rewrite rev_involutive. apply of_chars_chars.
Qed.

(** joining a directory and a name, then taking the base name, gives the
    name back *)
Lemma basename_join (d n : string) :
  Shapes.sep_free n = true -> OsPath.basename (OsPath.join d n) = n.
Proof.
  intros Hn. unfold OsPath.join.
  assert (Hs : PyStr.starts_with ["/"%char] (PyStr.chars n) = false).
  { unfold Shapes.sep_free in Hn. destruct (PyStr.chars n) as [|c cs]; [reflexivity|].
    cbn [forallb PyStr.starts_with] in *.
    apply andb_true_iff in Hn. destruct Hn as [Hc _].
    unfold OsPath.is_sep in Hc. rewrite Ascii.eqb_sym.
    apply negb_true_iff in Hc. now rewrite Hc. }
  rewrite Hs.
  assert (Hrev : forallb (fun c => negb (OsPath.is_sep c)) (rev (PyStr.chars n)) = true)
    by now rewrite forallb_rev.
  destruct (String.eqb d "") eqn:Ed.
  - apply String.eqb_eq in Ed. subst d. cbn [orb String.append].
    now apply basename_of_sep_free.
  - cbn [orb]. destruct (PyStr.endswith d "/") eqn:Ee.
    + unfold OsPath.basename. rewrite chars_app, rev_app_distr.
      unfold PyStr.endswith in Ee.
      change (rev (PyStr.chars "/")) with ["/"%char] in Ee.
      destruct (rev (PyStr.chars d)) as [|c cs] eqn:Er; [discriminate|].
      cbn [PyStr.starts_with] in Ee. rewrite andb_true_r in Ee.
      rewrite take_while_app_stop; [|assumption|].
      * rewrite rev_involutive. apply of_chars_chars.
      * unfold OsPath.is_sep. rewrite Ascii.eqb_sym, Ee. reflexivity.
    + unfold OsPath.basename. rewrite !chars_app, !rev_app_distr.
      change (rev (PyStr.chars "/")) with ["/"%char].
      rewrite <- app_assoc. cbn [app].
      rewrite take_while_app_stop; [|assumption|reflexivity].
      rewrite rev_involutive. apply of_chars_chars.
Qed.

(** *** What the listing holds *)

Lemma load_all_In w paths r :
  In r (load_all w paths) ->
  In (path r) paths /\ _load_json w (path r) = Ok (data r)
  /\ filename r = OsPath.basename (path r).
Proof.
  induction paths as [|p paths IH]; simpl; [contradiction|].
  destruct (_load_json w p) as [v|e] eqn:L.
  - intros [<-|H]; simpl; [auto|].
    destruct (IH H) as (? & ? & ?). auto.
  - intros H. destruct (IH H) as (? & ? & ?). auto.
Qed.

Lemma iter_client_files_In self w p :
  In p (_iter_client_files self w) ->
  isdir w (clients_dir self) = true
  /\ exists name,
       p = OsPath.join (clients_dir self) name
       /\ PyStr.endswith (PyStr.lower name) ".json" = true
       /\ Shapes.sep_free name = true.
Proof.
  unfold _iter_client_files.
  destruct (isdir w (clients_dir self)); simpl; [|contradiction].
  intros H. split; [reflexivity|].
  apply in_map_iff in H. destruct H as (name & <- & Hin).
  apply filter_In in Hin. destruct Hin as [Hin Hjson].
  exists name. split; [reflexivity|]. split; [assumption|].
  unfold listdir in Hin. apply in_map_iff in Hin.
  destruct Hin as (f & <- & _). apply basename_sep_free.
Qed.

Lemma list_clients_In self w r :
  In r (list_clients self w) ->
  isdir w (clients_dir self) = true
  /\ PyStr.endswith (PyStr.lower (filename r)) ".json" = true
  /\ Shapes.sep_free (filename r) = true
  /\ path r = OsPath.join (clients_dir self) (filename r)
  /\ _load_json w (path r) = Ok (data r).
Proof.
  intros H.
  apply (Permutation_in _ (list_clients_perm self w)) in H.
  destruct (load_all_In _ _ _ H) as (Hp & Hl & Hf).
  destruct (iter_client_files_In _ _ _ Hp) as (Hd & name & Hpath & Hjson & Hsep).
  assert (Hn : filename r = name) by (rewrite Hf, Hpath; now apply basename_join).
  rewrite Hn. repeat split; auto.
Qed.

(** X1. Every record of the listing comes from the store directory: the
    directory exists, the record's file name ends in [.json] whatever the
    case and holds no separator, its path is the directory joined with
    the name, and its data is the JSON document stored at that path. *)
Theorem listing_reflects_store :
  forall self w r,
    In r (list_clients self w) ->
    isdir w (clients_dir self) = true
    /\ PyStr.endswith (PyStr.lower (filename r)) ".json" = true
    /\ Shapes.sep_free (filename r) = true
    /\ path r = OsPath.join (clients_dir self) (filename r)
    /\ find_file (files w) (path r) = Some (Text (JsonText (data r))).
Proof.
  intros self w r H.
  destruct (list_clients_In _ _ _ H) as (Hd & Hj & Hs & Hp & Hl).
  repeat split; auto. now apply load_json_found in Hl.
Qed.

Lemma listing_reflects_store_witness :
  find_file (files Examples.store)
            (path (Examples.named "acme-2025-11-16.json"))
  = Some (Text (JsonText Examples.acme_doc)).
Proof.
  assert (H : In {| filename := "acme-2025-11-16.json";
                    path := "/srv/clients/acme-2025-11-16.json";
                    data := Examples.acme_doc |}
                 (list_clients Examples.db Examples.store))
    by (right; left; reflexivity).
  exact (proj2 (proj2 (proj2 (proj2
           (listing_reflects_store Examples.db Examples.store _ H))))).
Defined.

(** X2. Fetching a listed record by its file name gives that very
    record. *)
Theorem load_client_of_listed :
  forall self w r,
    In r (list_clients self w) -> load_client self w (filename r) = Ok r.
Proof.
  intros self w r H.
  destruct (list_clients_In _ _ _ H) as (_ & _ & _ & Hp & Hl).
  unfold load_client. rewrite <- Hp, Hl. simpl.
  destruct r; simpl in *. now subst.
Qed.

Lemma load_client_of_listed_witness :
  load_client Examples.db Examples.store "beta.json"
  = Ok {| filename := "beta.json"; path := "/srv/clients/beta.json";
          data := Examples.beta_doc |}.
Proof.
  apply (load_client_of_listed Examples.db Examples.store
           {| filename := "beta.json"; path := "/srv/clients/beta.json";
              data := Examples.beta_doc |}).
  left. reflexivity.
Defined.

(** *** Searching *)



Lemma filter_matching_ext m1 m2 l :
  (forall r, m1 r = m2 r) -> filter_matching m1 l = filter_matching m2 l.
Proof.
  intros H. induction l as [|r l IH]; simpl; [reflexivity|].
  now rewrite H, IH.
Qed.








Lemma lower_eq_empty (s : string) : PyStr.lower s = "" <-> s = "".
Proof.
  unfold PyStr.lower. split.
  - intros H. destruct s; [reflexivity | discriminate].
  - now intros ->.
Qed.

Lemma criterion_lower a b :
  PyStr.lower a = PyStr.lower b ->
  option_map PyStr.lower (criterion (Some a))
  = option_map PyStr.lower (criterion (Some b)).
Proof.
  intros H. unfold criterion.
  destruct (String.eqb a "") eqn:Ea, (String.eqb b "") eqn:Eb; simpl;
    try reflexivity; try now rewrite H.
  - apply String.eqb_eq in Ea. subst a. symmetry in H.
    change (PyStr.lower "") with "" in H.
    apply (proj1 (lower_eq_empty _)) in H. subst b. now rewrite String.eqb_refl in Eb.
  - apply String.eqb_eq in Eb. subst b.
    change (PyStr.lower "") with "" in H.
    apply (proj1 (lower_eq_empty _)) in H. subst a. now rewrite String.eqb_refl in Ea.
Qed.

(** a criterion enters [matches] through its lower-case form only *)
Lemma field_check_lower a b (field : result pyval) :
  PyStr.lower a = PyStr.lower b ->
  match criterion (Some a) with
  | Some s => field_contains s field
  | None => Ok true
  end
  = match criterion (Some b) with
    | Some s => field_contains s field
    | None => Ok true
    end.
Proof.
  intros H. pose proof (criterion_lower a b H) as C.
  destruct (criterion (Some a)) as [s|], (criterion (Some b)) as [t|];
    simpl in C; try discriminate; [|reflexivity].
  injection C as C. unfold field_contains. now rewrite C.
Qed.

(** X5. A search ignores the case of its string criteria: two business
    name criteria, or two industry criteria, with the same lower-case
    form give the same result, exception included. *)
Theorem search_ignores_criterion_case :
  forall self w a b,
    PyStr.lower a = PyStr.lower b ->
    (forall ci cd,
        search_clients self w (Some a) ci cd = search_clients self w (Some b) ci cd)
    /\ (forall cn cd,
           search_clients self w cn (Some a) cd
           = search_clients self w cn (Some b) cd).
Proof.
  intros self w a b H.
  assert (G : given (Some a) = given (Some b)).
  { unfold given. pose proof (criterion_lower a b H) as C.
    destruct (criterion (Some a)), (criterion (Some b)); simpl in C;
      congruence. }
  split.
  - intros ci cd. unfold search_clients. rewrite G.
    destruct (negb _); [reflexivity|].
    apply filter_matching_ext. intros r. unfold matches.
    now rewrite (field_check_lower a b (business_name r) H).
  - intros cn cd. unfold search_clients. rewrite G.
    destruct (negb _); [reflexivity|].
    apply filter_matching_ext. intros r. unfold matches.
    now rewrite (field_check_lower a b (industry r) H).
Qed.

Lemma search_ignores_criterion_case_witness :
  search_clients Examples.db Examples.store (Some "ACME") None None
  = search_clients Examples.db Examples.store (Some "acme") None None.
Proof.
  apply (proj1 (search_ignores_criterion_case Examples.db Examples.store
                  "ACME" "acme" eq_refl)).
Defined.

(** X6. Criteria combine by conjunction: a record passes several
    criteria exactly when it passes each of them given alone. *)
Theorem search_criteria_conjunction :
  forall cn ci cd r,
    Shapes.selected cn ci cd r
    = Shapes.selected cn None None r
      && Shapes.selected None ci None r
      && Shapes.selected None None cd r.
Proof.
  intros cn ci cd r. unfold Shapes.selected, matches.
  change (criterion None) with (@None string). cbn [bind negb].
  destruct (match criterion cn with
            | Some s => field_contains s (business_name r)
            | None => Ok true
            end) as [[|]|]; cbn [bind negb andb]; try reflexivity.
  destruct (match criterion ci with
            | Some s => field_contains s (industry r)
            | None => Ok true
            end) as [[|]|]; cbn [bind negb andb]; reflexivity.
Qed.

(** *** Updating *)











(** *** Exporting *)

Lemma has_key_In (d : pydict) k : has_key d k = true <-> In k (Shapes.keys d).
Proof.
  unfold has_key, Shapes.keys. induction d as [|[k' v] d IH]; simpl.
  - split; [discriminate | contradiction].
  - str_cases k k'.
    + subst. split; auto.
    + rewrite IH. split; [auto | intros [H|H]; [congruence | assumption]].
Qed.

Lemma all_keys_step (d : pydict) : forall acc,
  fold_left (fun ks kv =>
               if existsb (String.eqb (fst kv)) ks then ks else ks ++ [fst kv])
            d acc
  = fold_left Spec.emit (Shapes.keys d) acc.
Proof.
  induction d as [|kv d IH]; intros acc; simpl; [reflexivity|]. apply IH.
Qed.

(** the union of the keys, or [AttributeError] at a root that is not a
    mapping *)
Lemma all_keys_spec (clients : list ClientRecord) : forall acc,
  match all_keys clients acc with
  | Ok ks =>
      forallb (fun r => Shapes.is_mapping (data r)) clients = true
      /\ (forall k, In k ks <->
                    In k acc
                    \/ exists r d, In r clients /\ data r = VDict d
                                   /\ has_key d k = true)
      /\ (NoDup acc -> NoDup ks)
  | Raise e =>
      e = AttributeError
      /\ forallb (fun r => Shapes.is_mapping (data r)) clients = false
  end.
Proof.
  induction clients as [|r clients IH]; intros acc; simpl.
  - split; [reflexivity|]. split; [|auto].
    intros k. split; [auto | intros [H|(r & d & [] & _)]; assumption].
  - destruct (data r) eqn:D; simpl; try (split; reflexivity).
    rewrite all_keys_step.
    specialize (IH (fold_left Spec.emit (Shapes.keys d) acc)).
    destruct (all_keys clients _) as [ks|e].
    + destruct IH as (Hm & Hin & Hnd). split; [assumption|]. split.
      * intros k. rewrite Hin, fold_emit_In. split.
        -- intros [[H|H]|(r' & d' & Hr & Hd & Hk)].
           ++ now left.
           ++ right. exists r, d. split; [now left|]. split; [assumption|].
              now apply has_key_In.
           ++ right. exists r', d'. auto.
        -- intros [H|(r' & d' & [<-|Hr] & Hd & Hk)].
           ++ left. now left.
           ++ left. right. rewrite D in Hd. injection Hd as <-.
              now apply has_key_In.
           ++ right. exists r', d'. auto.
      * intros H. apply Hnd. now apply fold_emit_NoDup.
    + exact IH.
Qed.

Lemma write_file_ok w p c w' :
  write_file w p c = (Ok tt, w') ->
  files w' = put_file (files w) p c /\ dirs w' = dirs w.
Proof.
  unfold write_file. destruct (String.eqb p ""); [discriminate|].
  destruct (_ || _ || _); [|discriminate].
  intros [= <-]. auto.
Qed.

Lemma write_file_raise w p c e w' :
  write_file w p c = (Raise e, w') -> w' = w.
Proof.
  unfold write_file. destruct (String.eqb p ""); [now intros [= _ <-]|].
  destruct (_ || _ || _); [discriminate | now intros [= _ <-]].
Qed.

Lemma write_file_cases w p c :
  (exists w', write_file w p c = (Ok tt, w')
              /\ files w' = put_file (files w) p c /\ dirs w' = dirs w)
  \/ (exists e, write_file w p c = (Raise e, w)).
Proof.
  destruct (write_file w p c) as [[[]|e] w'] eqn:E.
  - left. exists w'. split; [reflexivity|]. now apply write_file_ok.
  - right. exists e. apply write_file_raise in E as Ew. now subst.
Qed.

(** X9. A successful export leaves at its path a table whose header is
    [filename] followed by the keys of all listed documents, each once
    and in ascending code point order, and whose lines are one per listed
    record, in listing order, each as long as the header. *)
Theorem export_writes_table :
  forall self w csv_path p w',
    export_to_csv self w csv_path = (Ok p, w') ->
    p = default_csv_path self csv_path
    /\ exists ks,
         find_file (files w') p
         = Some (Csv (map VStr ("filename" :: ks)
                      :: map (csv_row ("filename" :: ks)) (list_clients self w)))
         /\ StronglySorted (fun a b => PyStr.leb a b = true) ks
         /\ NoDup ks
         /\ (forall k, In k ks <->
                       exists r d, In r (list_clients self w)
                                   /\ data r = VDict d /\ has_key d k = true)
         /\ Forall (fun line => List.length line = S (List.length ks))
                   (map (csv_row ("filename" :: ks)) (list_clients self w)).
Proof.
  intros self w csv_path p w' H. unfold export_to_csv in H.
  remember (list_clients self w) as cl eqn:L. clear L.
  destruct cl as [|r0 rs].
  - destruct (write_file_cases w (default_csv_path self csv_path)
                (Csv [[VStr "filename"]])) as [(w1 & E & Hf & _)|(e & E)];
      rewrite E in H; [|discriminate].
    injection H as <- <-. split; [reflexivity|]. exists [].
    split; [rewrite Hf; apply find_put_same|].
    split; [constructor|]. split; [constructor|]. split; [|constructor].
    intros k. split; [contradiction | intros (r & d & [] & _)].
  - set (cl := r0 :: rs) in *.
    pose proof (all_keys_spec cl []) as A.
    destruct (all_keys cl []) as [ks0|e]; [|discriminate].
    destruct A as (_ & Hin & Hnd).
    unfold makedirs in H.
    destruct (String.eqb (OsPath.dirname (default_csv_path self csv_path)) "");
      [discriminate|].
    set (w1 := {| dirs := _; files := files w |}) in H.
    set (ks := sort_by PyStr.leb ks0) in *.
    destruct (write_file_cases w1 (default_csv_path self csv_path)
                (Csv (map VStr ("filename" :: ks)
                      :: map (csv_row ("filename" :: ks)) cl)))
      as [(w2 & E & Hf & _)|(e & E)]; rewrite E in H; [|discriminate].
    injection H as <- <-. split; [reflexivity|]. exists ks.
    split; [rewrite Hf; apply find_put_same|].
    assert (P : Permutation ks ks0) by apply sort_by_perm.
    split; [apply sort_by_sorted; [apply str_leb_total | apply str_leb_trans]|].
    split; [apply (Permutation_NoDup (Permutation_sym P)), Hnd; constructor|].
    split.
    + intros k. split.
      * intros Hk. apply (Permutation_in _ P) in Hk. apply Hin in Hk.
        destruct Hk as [[]|Hk]. exact Hk.
      * intros Hk. apply (Permutation_in _ (Permutation_sym P)).
        apply Hin. now right.
    + apply Forall_forall. intros line Hl. apply in_map_iff in Hl.
      destruct Hl as (r & <- & _). unfold csv_row. now rewrite length_map.
Qed.

Lemma export_writes_table_witness :
  "/srv/clients/clients_export.csv" = default_csv_path Examples.db None
  /\ exists ks,
       find_file (files (snd (export_to_csv Examples.db Examples.store None)))
                 "/srv/clients/clients_export.csv"
       = Some (Csv (map VStr ("filename" :: ks)
                    :: map (csv_row ("filename" :: ks))
                           (list_clients Examples.db Examples.store)))
       /\ StronglySorted (fun a b => PyStr.leb a b = true) ks
       /\ NoDup ks
       /\ (forall k, In k ks <->
                     exists r d, In r (list_clients Examples.db Examples.store)
                                 /\ data r = VDict d /\ has_key d k = true)
       /\ Forall (fun line => List.length line = S (List.length ks))
                 (map (csv_row ("filename" :: ks))
                      (list_clients Examples.db Examples.store)).
Proof.
  apply (export_writes_table Examples.db Examples.store None
           "/srv/clients/clients_export.csv"
           (snd (export_to_csv Examples.db Examples.store None))).
  reflexivity.
Defined.

(** X10. Whatever its outcome, an export changes no file other than the
    one at its target path. *)
Theorem export_touches_only_target :
  forall self w csv_path q,
    q <> default_csv_path self csv_path ->
    find_file (files (snd (export_to_csv self w csv_path))) q
    = find_file (files w) q.
Proof.
  intros self w csv_path q Hq. unfold export_to_csv.
  destruct (list_clients self w) as [|r0 rs].
  - destruct (write_file_cases w (default_csv_path self csv_path)
                (Csv [[VStr "filename"]])) as [(w1 & E & Hf & _)|(e & E)];
      rewrite E; cbn [snd]; [|reflexivity].
    rewrite Hf. now apply find_put_other.
  - destruct (all_keys (r0 :: rs) []) as [ks0|e]; [|reflexivity].
    unfold makedirs.
    destruct (String.eqb (OsPath.dirname (default_csv_path self csv_path)) "");
      [reflexivity|].
    match goal with
    | |- context [write_file ?w1 ?p ?c] =>
        destruct (write_file_cases w1 p c) as [(w2 & E & Hf & _)|(e & E)];
          rewrite E; cbn [snd files]
    end; [|reflexivity].
    rewrite Hf. cbn [files]. now apply find_put_other.
Qed.

Lemma export_touches_only_target_witness :
  find_file (files (snd (export_to_csv Examples.db Examples.store None)))
            "/srv/clients/beta.json"
  = find_file (files Examples.store) "/srv/clients/beta.json".
Proof.
  apply (export_touches_only_target Examples.db Examples.store None
           "/srv/clients/beta.json").
  discriminate.
Defined.

(** X11. When the root of some listed document is not a mapping, an
    export raises [AttributeError] and leaves the file system as it
    was. *)
Theorem export_fails_on_non_mapping :
  forall self w csv_path,
    forallb (fun r => Shapes.is_mapping (data r)) (list_clients self w) = false ->
    export_to_csv self w csv_path = (Raise AttributeError, w).
Proof.
  intros self w csv_path H. unfold export_to_csv.
  destruct (list_clients self w) as [|r0 rs]; [discriminate|].
  pose proof (all_keys_spec (r0 :: rs) []) as A.
  destruct (all_keys (r0 :: rs) []) as [ks|e].
  - destruct A as (Hm & _). congruence.
  - destruct A as (-> & _). reflexivity.
Qed.

Lemma export_fails_on_non_mapping_witness :
  export_to_csv Examples.db Examples.store_with_list_root None
  = (Raise AttributeError, Examples.store_with_list_root).
Proof.
  apply (export_fails_on_non_mapping Examples.db Examples.store_with_list_root None).
  reflexivity.
Defined.

(** the names a listing reads do not change when a file that is not a
    [.json] file is written *)
Lemma json_names_put d p c (fl : list (string * content)) :
  PyStr.endswith (PyStr.lower (OsPath.basename p)) ".json" = false ->
  filter (fun name => PyStr.endswith (PyStr.lower name) ".json")
         (map (fun f => OsPath.basename (fst f))
              (filter (fun f => String.eqb (OsPath.dirname (fst f)) (OsPath.norm d))
                      (put_file fl p c)))
  = filter (fun name => PyStr.endswith (PyStr.lower name) ".json")
           (map (fun f => OsPath.basename (fst f))
                (filter (fun f => String.eqb (OsPath.dirname (fst f)) (OsPath.norm d))
                        fl)).
Proof.
  intros Hp. induction fl as [|[q c'] fl IH].
  - cbn [put_file filter fst].
    destruct (String.eqb (OsPath.dirname p) (OsPath.norm d)); [|reflexivity].
    cbn [map filter fst]. now rewrite Hp.
  - cbn [put_file]. destruct (String.eqb p q).
    { cbn [filter fst].
      now destruct (String.eqb (OsPath.dirname q) (OsPath.norm d)). }
    cbn [filter fst].
    destruct (String.eqb (OsPath.dirname q) (OsPath.norm d)); [|exact IH].
    cbn [map filter fst]. rewrite IH. reflexivity.
Qed.

Lemma add_dir_keeps x a ds :
  existsb (String.eqb x) ds = true -> existsb (String.eqb x) (add_dir ds a) = true.
Proof.
  intros H. unfold add_dir. destruct (_ || _); [assumption|].
  rewrite existsb_app, H. reflexivity.
Qed.

Lemma makedirs_keeps x l : forall ds,
  existsb (String.eqb x) ds = true ->
  existsb (String.eqb x) (fold_left add_dir l ds) = true.
Proof.
  induction l as [|a l IH]; intros ds H; simpl; [assumption|].
  apply IH. now apply add_dir_keeps.
Qed.

Lemma load_all_other_file w w' paths :
  (forall q, In q paths -> find_file (files w') q = find_file (files w) q) ->
  load_all w' paths = load_all w paths.
Proof.
  induction paths as [|q paths IH]; intros H; simpl; [reflexivity|].
  unfold _load_json. rewrite (H q (or_introl eq_refl)).
  rewrite IH by (intros q' Hq'; apply H; now right). reflexivity.
Qed.

(** X12. A successful export to the default path does not change what
    the listing returns. *)
Theorem export_keeps_listing :
  forall self w p w',
    export_to_csv self w None = (Ok p, w') ->
    list_clients self w' = list_clients self w.
Proof.
  intros self w p w' H.
  set (target := default_csv_path self None).
  assert (Hb : PyStr.endswith (PyStr.lower (OsPath.basename target)) ".json" = false).
  { unfold target, default_csv_path. rewrite basename_join; reflexivity. }
  assert (Hw : files w' = put_file (files w) target
                                   (match find_file (files w') target with
                                    | Some c => c | None => Csv [] end)
               /\ (isdir w (clients_dir self) = true ->
                   isdir w' (clients_dir self) = true)
               /\ (list_clients self w = [] -> dirs w' = dirs w)).
  { unfold export_to_csv in H. fold target in H.
    destruct (list_clients self w) as [|r0 rs].
    - destruct (write_file_cases w target (Csv [[VStr "filename"]]))
        as [(w1 & E & Hf & Hd)|(e & E)]; rewrite E in H; [|discriminate].
      injection H as _ <-. rewrite Hf, find_put_same.
      split; [reflexivity|]. split; [|auto].
      unfold isdir. now rewrite Hd.
    - destruct (all_keys (r0 :: rs) []) as [ks0|e]; [|discriminate].
      unfold makedirs in H.
      destruct (String.eqb (OsPath.dirname target) ""); [discriminate|].
      match type of H with
      | context [write_file ?w1 ?p ?c] =>
          destruct (write_file_cases w1 p c) as [(w2 & E & Hf & Hd)|(e & E)];
            rewrite E in H
      end; [|discriminate].
      injection H as _ <-. cbn [files dirs] in Hf, Hd.
      rewrite Hf, find_put_same.
      split; [reflexivity|]. split; [|discriminate].
      unfold isdir. rewrite Hd. intros Hi.
      apply andb_true_iff in Hi. destruct Hi as [-> Hi]. cbn [andb].
      now apply makedirs_keeps. }
  destruct Hw as (Hf & Hdir & Hempty).
  unfold list_clients.
  destruct (isdir w (clients_dir self)) eqn:Hi.
  - rewrite (Hdir eq_refl). cbn [negb].
    assert (Hiter : _iter_client_files self w' = _iter_client_files self w).
    { unfold _iter_client_files. rewrite Hi, (Hdir eq_refl). cbn [negb].
      f_equal. unfold listdir. rewrite Hf. now apply json_names_put. }
    rewrite Hiter. f_equal.
    apply load_all_other_file. intros q Hq.
    rewrite Hf. apply find_put_other. intros ->.
    destruct (iter_client_files_In _ _ _ Hq) as (_ & name & Hn & Hj & Hs).
    rewrite Hn, basename_join in Hb by assumption. congruence.
  - assert (L : list_clients self w = [])
      by (unfold list_clients; now rewrite Hi).
    unfold isdir in *. rewrite (Hempty L), Hi. reflexivity.
Qed.

Lemma export_keeps_listing_witness :
  list_clients Examples.db (snd (export_to_csv Examples.db Examples.store None))
  = list_clients Examples.db Examples.store.
Proof.
  apply (export_keeps_listing Examples.db Examples.store
           "/srv/clients/clients_export.csv").
  reflexivity.
Defined.


(** *** Dates in file names *)

Lemma in_range_bounds lo hi c :
  in_range lo hi c = true -> lo <= nat_of_ascii c <= hi.
Proof.
  unfold in_range. intros H. apply andb_true_iff in H.
  destruct H as [H1 H2]. apply Nat.leb_le in H1, H2. lia.
Qed.

Lemma is_digit_bounds c :
  PyStr.is_digit c = true -> (0 <= PyStr.digit_val c <= 9)%Z.
Proof.
  unfold PyStr.is_digit, PyStr.digit_val. intros H. apply andb_true_iff in H.
  destruct H as [H1 H2]. apply Nat.leb_le in H1, H2. lia.
Qed.

Ltac range_facts :=
  repeat match goal with
         | H : in_range _ _ _ = true |- _ => apply in_range_bounds in H
         | H : PyStr.is_digit _ = true |- _ => apply is_digit_bounds in H
         | H : _ && _ = true |- _ => apply andb_true_iff in H; destruct H
         end.

Ltac pair_value H :=
  match type of H with
  | (?x, _) = (?m, _) =>
      let E := fresh "E" in
      assert (E : m = x) by congruence; rewrite E; clear E H
  | Some (?x, _) = Some (?m, _) =>
      let E := fresh "E" in
      assert (E : m = x) by congruence; rewrite E; clear E H
  end.

Lemma month_matches_range cs m rest :
  In (m, rest) (month_matches cs) -> (1 <= m <= 12)%Z.
Proof.
  unfold month_matches. destruct cs as [|a [|b cs]].
  - intros [].
  - destruct (in_range 49 57 a) eqn:E; [|intros []].
    intros [H|[]]. pair_value H. range_facts. unfold PyStr.digit_val. lia.
  - intros H. apply in_app_or in H. destruct H as [H|H].
    + destruct (Ascii.eqb a "1" && in_range 48 50 b) eqn:E; [|destruct H].
      destruct H as [H|[]]. pair_value H.
      range_facts. unfold PyStr.digit_val. lia.
    + apply in_app_or in H. destruct H as [H|H].
      * destruct (Ascii.eqb a "0" && in_range 49 57 b) eqn:E; [|destruct H].
        destruct H as [H|[]]. pair_value H.
        range_facts. unfold PyStr.digit_val. lia.
      * destruct (in_range 49 57 a) eqn:E; [|destruct H].
        destruct H as [H|[]]. pair_value H.
        range_facts. unfold PyStr.digit_val. lia.
Qed.

Lemma day_match_range cs d rest :
  day_match cs = Some (d, rest) -> (1 <= d <= 31)%Z.
Proof.
  unfold day_match. destruct cs as [|a [|b cs]]; [discriminate| |].
  - destruct (in_range 49 57 a) eqn:E; [|discriminate].
    intros H. pair_value H. range_facts. unfold PyStr.digit_val. lia.
  - destruct (Ascii.eqb a "3" && in_range 48 49 b) eqn:E1.
    { intros H. pair_value H. range_facts. unfold PyStr.digit_val. lia. }
    destruct (in_range 49 50 a && PyStr.is_digit b) eqn:E2.
    { intros H. pair_value H. range_facts. unfold PyStr.digit_val in *. lia. }
    destruct (Ascii.eqb a "0" && in_range 49 57 b) eqn:E3.
    { intros H. pair_value H. range_facts. unfold PyStr.digit_val. lia. }
    destruct (in_range 49 57 a) eqn:E4.
    { intros H. pair_value H. range_facts. unfold PyStr.digit_val. lia. }
    destruct (Ascii.eqb a " " && in_range 49 57 b) eqn:E5; [|discriminate].
    intros H. pair_value H. range_facts. unfold PyStr.digit_val. lia.
Qed.

Lemma first_day_range ms : forall m d rest,
  first_day ms = Some (m, d, rest) ->
  (forall m' cs, In (m', cs) ms -> (1 <= m' <= 12)%Z) ->
  (1 <= m <= 12 /\ 1 <= d <= 31)%Z.
Proof.
  induction ms as [|[m0 cs] ms IH]; intros m d rest H Hms; simpl in H;
    [discriminate|].
  assert (Hrec : first_day ms = Some (m, d, rest) ->
                 (1 <= m <= 12 /\ 1 <= d <= 31)%Z).
  { intros H'. apply (IH _ _ _ H'). intros m' cs' Hin.
    apply (Hms m' cs'). now right. }
  destruct cs as [|dash cs']; [auto|].
  destruct (Ascii.eqb dash "-"); [|auto].
  destruct (day_match cs') as [[d0 rest0]|] eqn:D; [|auto].
  injection H as <- <- <-. split.
  - apply (Hms m0 (dash :: cs')). now left.
  - now apply day_match_range in D.
Qed.

Lemma strptime_ymd_calendar s d :
  strptime_ymd s = Some d -> Shapes.calendar_date d = true.
Proof.
  unfold strptime_ymd.
  destruct (PyStr.chars s) as [|y1 [|y2 [|y3 [|y4 [|dash cs]]]]]; try discriminate.
  destruct (PyStr.is_digit y1 && PyStr.is_digit y2 && PyStr.is_digit y3
            && PyStr.is_digit y4 && Ascii.eqb dash "-") eqn:E; [|discriminate].
  destruct (first_day (month_matches cs)) as [[[m dd] rest]|] eqn:F;
    [|discriminate].
  destruct rest; [|discriminate].
  cbv zeta.
  remember (1000 * PyStr.digit_val y1 + 100 * PyStr.digit_val y2
            + 10 * PyStr.digit_val y3 + PyStr.digit_val y4)%Z as y eqn:Ey.
  destruct ((1 <=? y) && (dd <=? days_in_month y m))%Z eqn:V; [|discriminate].
  intros H. assert (Hd' : d = {| year := y; month := m; day := dd |}) by congruence.
  subst d. clear H. unfold Shapes.calendar_date. cbn [year month day].
  destruct (first_day_range _ _ _ _ F) as [Hm Hd];
    [intros m' cs' Hin; eapply month_matches_range; exact Hin|].
  apply andb_true_iff in V. destruct V as [V1 V2].
  range_facts.
  repeat (apply andb_true_iff; split); try assumption;
    try (apply Z.leb_le; lia).
Qed.

(** X13. The date of a record is never an impossible one: when a date is
    found, its year lies in 1 to 9999, its month in 1 to 12 and its day
    within the length of that month, leap years counted. *)
Theorem date_is_calendar_date :
  forall r d, date r = Some d -> Shapes.calendar_date d = true.
Proof.
  intros r d. unfold date.
  destruct (OsPath.splitext (OsPath.basename (filename r))) as [name ext].
  destruct (negb (String.eqb (PyStr.lower ext) ".json")); [discriminate|].
  destruct (11 <=? String.length name); [|discriminate].
  apply strptime_ymd_calendar.
Qed.

Lemma date_is_calendar_date_witness :
  Shapes.calendar_date {| year := 2025; month := 11; day := 16 |} = true.
Proof.
  apply (date_is_calendar_date (Examples.named "acme-2025-11-16.json")).
  reflexivity.
Defined.

Lemma digit_char_code k :
  (0 <= k <= 9)%Z -> nat_of_ascii (Intake.digit_char k) = 48 + Z.to_nat k.
Proof.
  intros H. unfold Intake.digit_char. apply nat_ascii_embedding. lia.
Qed.

Lemma digit_char_is_digit k :
  (0 <= k <= 9)%Z -> PyStr.is_digit (Intake.digit_char k) = true.
Proof.
  intros H. unfold PyStr.is_digit. rewrite digit_char_code by assumption.
  apply andb_true_iff. split; apply Nat.leb_le; lia.
Qed.

Lemma digit_char_val k :
  (0 <= k <= 9)%Z -> PyStr.digit_val (Intake.digit_char k) = k.
Proof.
  intros H. unfold PyStr.digit_val. rewrite digit_char_code by assumption. lia.
Qed.

Lemma ascii_eqb_codes c c' :
  nat_of_ascii c <> nat_of_ascii c' -> Ascii.eqb c c' = false.
Proof. intros H. apply Ascii.eqb_neq. congruence. Qed.

Lemma digit_char_plain k :
  (0 <= k <= 9)%Z ->
  OsPath.is_sep (Intake.digit_char k) = false
  /\ Ascii.eqb (Intake.digit_char k) "." = false.
Proof.
  intros H. unfold OsPath.is_sep.
  split; apply ascii_eqb_codes; rewrite digit_char_code by assumption.
  - change (nat_of_ascii "/") with 47. lia.
  - change (nat_of_ascii ".") with 46. lia.
Qed.

Lemma reads_back_all :
  forallb (fun m => forallb (Shapes.reads_back m) (seq 1 31)) (seq 1 12) = true.
Proof. vm_compute. reflexivity. Qed.

Lemma first_day_two_digits m d :
  (1 <= m <= 12)%Z -> (1 <= d <= 31)%Z ->
  first_day
    (month_matches
       [Intake.digit_char (m / 10); Intake.digit_char (m mod 10); "-"%char;
        Intake.digit_char (d / 10); Intake.digit_char (d mod 10)])
  = Some (m, d, []).
Proof.
  intros Hm Hd. pose proof reads_back_all as A.
  rewrite forallb_forall in A.
  specialize (A (Z.to_nat m)). rewrite forallb_forall in A.
  assert (Hin : In (Z.to_nat m) (seq 1 12)) by (apply in_seq; lia).
  specialize (A Hin (Z.to_nat d)).
  assert (Hin' : In (Z.to_nat d) (seq 1 31)) by (apply in_seq; lia).
  specialize (A Hin'). unfold Shapes.reads_back in A.
  rewrite !Z2Nat.id in A by lia.
  destruct (first_day _) as [[[m' d'] [|c rest]]|]; try discriminate.
  apply andb_true_iff in A. destruct A as [A1 A2].
  apply Z.eqb_eq in A1, A2. now subst.
Qed.

Lemma days_in_month_max y m : (days_in_month y m <= 31)%Z.
Proof.
  unfold days_in_month.
  destruct (m =? 2)%Z; [destruct (is_leap y); lia|].
  destruct (_ || _ || _ || _)%bool; lia.
Qed.

(** what [strftime] writes, [strptime] reads back *)
Lemma strptime_strftime d :
  Shapes.calendar_date d = true -> (1000 <= year d)%Z ->
  strptime_ymd (Intake.strftime_ymd d) = Some d.
Proof.
  destruct d as [y m dd]. unfold Shapes.calendar_date. cbn [year month day].
  intros H Hy.
  repeat (apply andb_true_iff in H; destruct H as [H ?]).
  repeat match goal with
         | H : (_ <=? _)%Z = true |- _ => apply Z.leb_le in H
         end.
  assert (D1 : (0 <= y / 1000 <= 9)%Z).
  { assert (y / 1000 < 10)%Z by (apply Z.div_lt_upper_bound; lia).
    assert (0 <= y / 1000)%Z by (apply Z.div_pos; lia). lia. }
  assert (D2 : (0 <= y / 100 mod 10 <= 9)%Z)
    by (pose proof (Z.mod_pos_bound (y / 100) 10); lia).
  assert (D3 : (0 <= y / 10 mod 10 <= 9)%Z)
    by (pose proof (Z.mod_pos_bound (y / 10) 10); lia).
  assert (D4 : (0 <= y mod 10 <= 9)%Z)
    by (pose proof (Z.mod_pos_bound y 10); lia).
  assert (Ey : (1000 * (y / 1000) + 100 * (y / 100 mod 10)
                + 10 * (y / 10 mod 10) + y mod 10 = y)%Z).
  { pose proof (Z.div_mod y 10). pose proof (Z.div_mod (y / 10) 10).
    pose proof (Z.div_mod (y / 100) 10).
    assert (y / 10 / 10 = y / 100)%Z by (rewrite Z.div_div by lia; reflexivity).
    assert (y / 100 / 10 = y / 1000)%Z by (rewrite Z.div_div by lia; reflexivity).
    lia. }
  unfold strptime_ymd, Intake.strftime_ymd. cbn [year month day].
  rewrite chars_of_chars. cbv beta iota.
  rewrite !digit_char_is_digit by assumption.
  rewrite !digit_char_val by assumption.
  change (Ascii.eqb "-" "-") with true. cbn [andb].
  pose proof (days_in_month_max y m).
  rewrite first_day_two_digits by lia.
  rewrite Ey.
  assert (V : ((1 <=? y) && (dd <=? days_in_month y m))%Z = true)
    by (apply andb_true_iff; split; apply Z.leb_le; lia).
  now rewrite V.
Qed.

Lemma string_length_chars (s : string) :
  String.length s = List.length (PyStr.chars s).
Proof. induction s; simpl; congruence. Qed.

Lemma skipn_all_app {A} (l1 l2 : list A) :
  skipn (List.length l1) (l1 ++ l2) = l2.
Proof. induction l1; simpl; auto. Qed.

(** a name that ends in a character other than the dot keeps itself as
    its stem when [.json] is appended *)
Lemma splitext_json pre c :
  Ascii.eqb c "." = false ->
  OsPath.splitext (PyStr.of_chars (pre ++ [c]) ++ ".json")%string
  = (PyStr.of_chars (pre ++ [c]), ".json").
Proof.
  intros Hc. unfold OsPath.splitext.
  rewrite chars_app, chars_of_chars, rev_app_distr.
  change (rev (PyStr.chars ".json"))
    with (["n"; "o"; "s"; "j"]%char ++ "."%char :: []).
  rewrite rev_app_distr. cbn [rev app].
  change ("n" :: "o" :: "s" :: "j" :: "." :: c :: rev pre)%char
    with (["n"; "o"; "s"; "j"]%char ++ "."%char :: c :: rev pre).
  rewrite take_while_app_stop, drop_while_app_stop by reflexivity.
  cbn [existsb]. rewrite Hc. cbn [negb orb].
  f_equal. f_equal. cbn [rev]. now rewrite rev_involutive.
Qed.

Lemma date_of_dated_name slug d p v :
  Shapes.sep_free slug = true ->
  Shapes.calendar_date d = true -> (1000 <= year d)%Z ->
  date {| filename := (slug ++ "-" ++ Intake.strftime_ymd d ++ ".json")%string;
          path := p; data := v |}
  = Some d.
Proof.
  intros Hs Hc Hy.
  pose proof (strptime_strftime d Hc Hy) as R.
  unfold Intake.strftime_ymd in *.
  set (y := year d) in *. set (m := month d) in *. set (dd := day d) in *.
  assert (Hd : (0 <= dd mod 10 <= 9)%Z)
    by (pose proof (Z.mod_pos_bound dd 10); lia).
  assert (Bounds : (0 <= y / 1000 <= 9 /\ 0 <= y / 100 mod 10 <= 9
                    /\ 0 <= y / 10 mod 10 <= 9 /\ 0 <= y mod 10 <= 9
                    /\ 0 <= m / 10 <= 9 /\ 0 <= m mod 10 <= 9
                    /\ 0 <= dd / 10 <= 9)%Z).
  { unfold Shapes.calendar_date in Hc. fold y m dd in Hc.
    repeat (apply andb_true_iff in Hc; destruct Hc as [Hc ?]).
    repeat match goal with
           | H : (_ <=? _)%Z = true |- _ => apply Z.leb_le in H
           end.
    pose proof (days_in_month_max y m).
    pose proof (Z.mod_pos_bound (y / 100) 10).
    pose proof (Z.mod_pos_bound (y / 10) 10).
    pose proof (Z.mod_pos_bound y 10).
    pose proof (Z.mod_pos_bound m 10).
    assert (y / 1000 < 10)%Z by (apply Z.div_lt_upper_bound; lia).
    assert (m / 10 < 10)%Z by (apply Z.div_lt_upper_bound; lia).
    assert (dd / 10 < 10)%Z by (apply Z.div_lt_upper_bound; lia).
    assert (0 <= y / 1000)%Z by (apply Z.div_pos; lia).
    assert (0 <= m / 10)%Z by (apply Z.div_pos; lia).
    assert (0 <= dd / 10)%Z by (apply Z.div_pos; lia).
    lia. }
  destruct Bounds as (B1 & B2 & B3 & B4 & B5 & B6 & B7).
  set (front := [Intake.digit_char (y / 1000); Intake.digit_char (y / 100 mod 10);
                 Intake.digit_char (y / 10 mod 10); Intake.digit_char (y mod 10);
                 "-"%char; Intake.digit_char (m / 10); Intake.digit_char (m mod 10);
                 "-"%char; Intake.digit_char (dd / 10)]).
  set (last := Intake.digit_char (dd mod 10)).
  change [Intake.digit_char (y / 1000); Intake.digit_char (y / 100 mod 10);
          Intake.digit_char (y / 10 mod 10); Intake.digit_char (y mod 10);
          "-"%char; Intake.digit_char (m / 10); Intake.digit_char (m mod 10);
          "-"%char; Intake.digit_char (dd / 10); Intake.digit_char (dd mod 10)]
    with (front ++ [last]) in *.
  assert (Hfront : forallb (fun c => negb (OsPath.is_sep c)) (front ++ [last]) = true).
  { unfold front, last. cbn [app forallb].
    rewrite !(proj1 (digit_char_plain _ B1)), !(proj1 (digit_char_plain _ B2)),
      !(proj1 (digit_char_plain _ B3)), !(proj1 (digit_char_plain _ B4)),
      !(proj1 (digit_char_plain _ B5)), !(proj1 (digit_char_plain _ B6)),
      !(proj1 (digit_char_plain _ B7)), !(proj1 (digit_char_plain _ Hd)).
    reflexivity. }
  set (stem := (PyStr.chars slug ++ "-"%char :: front) ++ [last]).
  assert (Ename : (slug ++ "-" ++ PyStr.of_chars (front ++ [last]) ++ ".json")%string
                  = (PyStr.of_chars stem ++ ".json")%string).
  { rewrite <- (of_chars_chars (slug ++ "-" ++ PyStr.of_chars (front ++ [last]) ++ ".json")%string).
    rewrite <- (of_chars_chars (PyStr.of_chars stem ++ ".json")%string).
    f_equal. rewrite !chars_app, !chars_of_chars. unfold stem.
    change (PyStr.chars "-") with ["-"%char].
    rewrite <- !app_assoc. reflexivity. }
  change (date {| filename := (slug ++ "-" ++ PyStr.of_chars (front ++ [last])
                               ++ ".json")%string;
                  path := p; data := v |} = Some d).
  unfold date. cbn [filename]. rewrite Ename.
  rewrite basename_of_sep_free.
  2:{ unfold Shapes.sep_free. rewrite chars_app, chars_of_chars, forallb_app.
      unfold stem. rewrite <- app_assoc. rewrite forallb_app.
      cbn [app forallb] in *. unfold Shapes.sep_free in Hs. rewrite Hs.
      cbn [andb]. change (OsPath.is_sep "-") with false. cbn [negb andb].
      rewrite Hfront. reflexivity. }
  unfold stem at 1. rewrite splitext_json
    by (apply (digit_char_plain _ Hd)).
  change (PyStr.lower ".json") with ".json". rewrite String.eqb_refl. cbn [negb].
  assert (Hlen : String.length (PyStr.of_chars stem)
                 = List.length (PyStr.chars slug) + 11).
  { rewrite string_length_chars, chars_of_chars. unfold stem, front.
    rewrite !length_app. simpl. lia. }
  fold stem. rewrite Hlen.
  assert (L : (11 <=? List.length (PyStr.chars slug) + 11) = true)
    by (apply Nat.leb_le; lia).
  rewrite L. unfold PyStr.last_n. rewrite chars_of_chars.
  assert (Hskip : skipn (List.length stem - 10) stem = front ++ [last]).
  { unfold stem.
    replace (PyStr.chars slug ++ "-"%char :: front)
      with ((PyStr.chars slug ++ ["-"%char]) ++ front)
      by (rewrite <- app_assoc; reflexivity).
    rewrite <- app_assoc.
    replace (List.length ((PyStr.chars slug ++ ["-"%char]) ++ front ++ [last]) - 10)
      with (List.length (PyStr.chars slug ++ ["-"%char]))
      by (rewrite !length_app; unfold front; simpl; lia).
    apply skipn_all_app. }
  rewrite Hskip. exact R.
Qed.

Lemma slug_char_not_sep (c : ascii) :
  Intake.is_slug_char c = true -> OsPath.is_sep c = false.
Proof.
  destruct c as [[] [] [] [] [] [] [] []]; vm_compute; congruence.
Qed.

Lemma slugify_sep_free (value : string) :
  Shapes.sep_free (Intake._slugify value) = true.
Proof.
  unfold Intake._slugify, MenuInput.or_client.
  destruct (String.eqb _ ""); [reflexivity|].
  unfold Shapes.sep_free. rewrite chars_of_chars.
  apply forallb_forall. intros c Hc. apply filter_In in Hc.
  destruct Hc as [_ Hc]. now rewrite (slug_char_not_sep c Hc).
Qed.

(** X14. The file name that the intake tool gives a record,
    [{slug}-{YYYY-MM-DD}.json] for the day of saving, is read back by the
    store as that very day, whatever the business name. *)
Theorem saved_name_yields_its_date :
  forall business_name today p v,
    Shapes.calendar_date today = true -> (1000 <= year today)%Z ->
    date {| filename := Intake.save_filename business_name today;
            path := p; data := v |}
    = Some today.
Proof.
  intros business_name today p v Hc Hy. unfold Intake.save_filename.
  apply date_of_dated_name; [apply slugify_sep_free | assumption | assumption].
Qed.

Lemma saved_name_yields_its_date_witness :
  date {| filename := "acme-corp-2024-02-29.json";
          path := "/srv/clients/acme-corp-2024-02-29.json";
          data := Examples.acme_doc |}
  = Some {| year := 2024; month := 2; day := 29 |}.
Proof.
  apply (saved_name_yields_its_date "Acme Corp"
           {| year := 2024; month := 2; day := 29 |}).
  - reflexivity.
  - cbn [year]. lia.
Defined.

(* ===================================================================== *)
(** ** Further properties of the menu and the summary *)
(* ===================================================================== *)

(** *** The client table *)

Lemma truthy_not_none_or_empty v : truthy v = true -> is_none_or_empty v = false.
Proof.
  destruct v; simpl; try reflexivity; try discriminate.
  intros H. now apply negb_true_iff in H.
Qed.

Lemma client_record_business_name d :
  ClientsMenu.is_client_record (VDict d) = true ->
  truthy (get d "business_name") = true.
Proof.
  unfold ClientsMenu.is_client_record.
  destruct (truthy (get d "name")), (truthy (get d "business_name"));
    simpl; auto; discriminate.
Qed.

Lemma rows_of_In files row :
  In row (ClientsMenu.rows_of files) ->
  exists d,
    In (ClientsMenu.row_file row, JsonText (VDict d)) files
    /\ ClientsMenu.is_client_record (VDict d) = true
    /\ row = ClientsMenu.make_row (ClientsMenu.row_file row) d.
Proof.
  induction files as [|[name c] files IH]; [intros []|].
  cbn [ClientsMenu.rows_of].
  assert (Hrest : In row (ClientsMenu.rows_of files) ->
                  exists d,
                    In (ClientsMenu.row_file row, JsonText (VDict d))
                       ((name, c) :: files)
                    /\ ClientsMenu.is_client_record (VDict d) = true
                    /\ row = ClientsMenu.make_row (ClientsMenu.row_file row) d).
  { intros H. destruct (IH H) as (d & Hin & Hc & Hr).
    exists d. split; [now right | auto]. }
  destruct c as [v|]; [|exact Hrest].
  destruct v; try exact Hrest.
  destruct (ClientsMenu.is_client_record (VDict d)) eqn:E; [|exact Hrest].
  intros [<-|H]; [|now apply Hrest].
  exists d. cbn [ClientsMenu.make_row ClientsMenu.row_file].
  split; [now left | auto].
Qed.

(** X15. The client table never shows the placeholder for a business
    name: every row comes from an accepted document of a [.json] file of
    the folder, and its business name is that document's own, non-empty
    value. *)
Theorem rows_show_the_business_name :
  forall folder row,
    In row (ClientsMenu.view_all_clients folder) ->
    exists d,
      In (ClientsMenu.row_file row, JsonText (VDict d)) folder
      /\ PyStr.endswith (ClientsMenu.row_file row) ".json" = true
      /\ ClientsMenu.is_client_record (VDict d) = true
      /\ ClientsMenu.row_business_name row = get d "business_name"
      /\ truthy (ClientsMenu.row_business_name row) = true.
Proof.
  intros folder row H. unfold ClientsMenu.view_all_clients in H.
  destruct (rows_of_In _ _ H) as (d & Hin & Hc & Hr).
  apply filter_In in Hin. destruct Hin as [Hin Hj]. cbn [fst] in Hj.
  pose proof (client_record_business_name d Hc) as Ht.
  assert (Hb : ClientsMenu.row_business_name row = get d "business_name").
  { rewrite Hr. cbn [ClientsMenu.make_row ClientsMenu.row_business_name
                      ClientsMenu.extract_field].
    unfold get in *. destruct (lookup d "business_name") as [v|]; [|discriminate].
    rewrite (truthy_not_none_or_empty v Ht). cbn [negb]. unfold por.
    now rewrite Ht. }
  exists d. repeat split; auto. now rewrite Hb.
Qed.

Lemma rows_show_the_business_name_witness :
  exists d,
    In ("acme-2025-11-16.json", JsonText (VDict d)) Examples.list_root_folder
    /\ PyStr.endswith "acme-2025-11-16.json" ".json" = true
    /\ ClientsMenu.is_client_record (VDict d) = true
    /\ VStr "Acme Corp" = get d "business_name"
    /\ truthy (VStr "Acme Corp") = true.
Proof.
  apply (rows_show_the_business_name Examples.list_root_folder
           (ClientsMenu.make_row "acme-2025-11-16.json"
              [("business_name", VStr "Acme Corp"); ("industry", VStr "Retail")])).
  right. left. reflexivity.
Defined.

Lemma rows_of_classified files :
  List.length (ClientsMenu.rows_of files)
  = List.length (Spec.classified_of (map snd files)).
Proof.
  induction files as [|[name c] files IH]; [reflexivity|].
  cbn [ClientsMenu.rows_of map snd Spec.classified_of].
  destruct c as [v|]; [|exact IH]. destruct v; try exact IH.
  change (ClientsMenu.is_client_record (VDict d))
    with (ClientsSummary.is_client_record (VDict d)).
  destruct (ClientsSummary.is_client_record (VDict d)); simpl; congruence.
Qed.

(** X16. The fallback summary and [summarize] count the same clients:
    the client table has as many rows as [summarize] reports clients. *)
Theorem table_rows_equal_total :
  forall folder,
    List.length (ClientsMenu.view_all_clients folder)
    = ClientsSummary.total (ClientsSummary.summarize folder).
Proof.
  intros folder. rewrite summarize_total.
  unfold ClientsMenu.view_all_clients, Spec.classified, ClientsSummary.glob_json.
  apply rows_of_classified.
Qed.

(** the industry text the fallback reads off a row is the one
    [summarize] extracts when the industry is a string or is not set *)
Lemma row_industry_text py_repr name d :
  Shapes.text_or_false (get d "industry") = true ->
  filter (fun ind => negb (String.eqb ind ""))
         [PyStr.strip
            (ClientsMenu.py_str py_repr
               (por (ClientsMenu.row_industry (ClientsMenu.make_row name d))
                    (VStr "")))]
  = Spec.somes [ClientsSummary.extract_industry d].
Proof.
  cbn [ClientsMenu.make_row ClientsMenu.row_industry ClientsMenu.extract_field].
  unfold ClientsSummary.extract_industry, get.
  destruct (lookup d "industry") as [v|]; [|reflexivity].
  intros Hd.
  destruct v as [| | | |s| | |]; try reflexivity;
    try (unfold Shapes.text_or_false in Hd; apply negb_true_iff in Hd;
         cbn [is_none_or_empty negb]; unfold por; rewrite Hd;
         reflexivity).
  cbn [is_none_or_empty]. destruct (String.eqb s "") eqn:Es.
  - apply String.eqb_eq in Es. subst s. reflexivity.
  - assert (T : truthy (VStr s) = true) by (cbn [truthy]; now rewrite Es).
    cbn [negb]. unfold por. rewrite !T. cbn [ClientsMenu.py_str filter Spec.somes].
    now destruct (negb (String.eqb (PyStr.strip s) "")).
Qed.

Lemma rows_industries py_repr files :
  Forall (fun d => Shapes.text_or_false (get d "industry") = true)
         (Spec.classified_of (map snd files)) ->
  filter (fun ind => negb (String.eqb ind ""))
         (map (fun r => PyStr.strip
                          (ClientsMenu.py_str py_repr
                             (por (ClientsMenu.row_industry r) (VStr ""))))
              (ClientsMenu.rows_of files))
  = Spec.somes (map ClientsSummary.extract_industry
                    (Spec.classified_of (map snd files))).
Proof.
  induction files as [|[name c] files IH]; intros H; [reflexivity|].
  cbn [ClientsMenu.rows_of map snd Spec.classified_of] in *.
  destruct c as [v|]; [|now apply IH]. destruct v; try now apply IH.
  change (ClientsMenu.is_client_record (VDict d))
    with (ClientsSummary.is_client_record (VDict d)) in *.
  destruct (ClientsSummary.is_client_record (VDict d)); [|now apply IH].
  inversion H as [|? ? Hd Hrest]; subst.
  change (ClientsMenu.make_row name d :: ClientsMenu.rows_of files)
    with ([ClientsMenu.make_row name d] ++ ClientsMenu.rows_of files).
  change (d :: Spec.classified_of (map snd files))
    with ([d] ++ Spec.classified_of (map snd files)).
  rewrite !map_app, filter_app.
  assert (S : forall (a b : list (option string)),
             Spec.somes (a ++ b) = Spec.somes a ++ Spec.somes b).
  { intros a b. induction a as [|[x|] a IHa]; simpl; congruence. }
  rewrite S. f_equal; [|exact (IH Hrest)].
  exact (row_industry_text py_repr name d Hd).
Qed.

(** X17. When the industry of every accepted document is a string or is
    not set, the fallback summary of the menu names the same most common
    industry as [summarize]. *)
Theorem fallback_industry_agrees :
  forall py_repr folder,
    Forall (fun d => Shapes.text_or_false (get d "industry") = true)
           (Spec.classified folder) ->
    ClientsMenu.fallback_most_common py_repr (ClientsMenu.view_all_clients folder)
    = ClientsSummary.most_common_industry (ClientsSummary.summarize folder).
Proof.
  intros py_repr folder H.
  rewrite fallback_most_common_agrees, summarize_industry.
  unfold ClientsMenu.view_all_clients, Spec.classified, ClientsSummary.glob_json in *.
  now rewrite rows_industries.
Qed.

Lemma fallback_industry_agrees_witness :
  ClientsMenu.fallback_most_common (fun _ => "")
    (ClientsMenu.view_all_clients Examples.tech_retail_folder)
  = ClientsSummary.most_common_industry
      (ClientsSummary.summarize Examples.tech_retail_folder).
Proof.
  apply (fallback_industry_agrees (fun _ => "") Examples.tech_retail_folder).
  repeat constructor.
Defined.

(** the head count the fallback reads off a row is the one [summarize]
    extracts *)
Lemma row_employees_value name d :
  Shapes.head_count_set d = true ->
  ClientsMenu.emp_values [ClientsMenu.make_row name d]
  = Spec.somes [ClientsSummary.extract_employees d].
Proof.
  unfold Shapes.head_count_set, ClientsSummary.extract_employees.
  cbn [ClientsMenu.emp_values ClientsMenu.make_row ClientsMenu.row_employees
       ClientsMenu.extract_field].
  destruct (lookup d "employees_count") as [v|].
  - intros T. rewrite (truthy_not_none_or_empty v T). cbn [negb].
    unfold por. rewrite T, (truthy_not_none_or_empty v T). cbn [negb].
    now destruct (to_float v).
  - destruct (lookup d "employees") as [v|]; [|reflexivity].
    intros T. rewrite (truthy_not_none_or_empty v T). cbn [negb].
    unfold por. rewrite T, (truthy_not_none_or_empty v T). cbn [negb].
    now destruct (to_float v).
Qed.

Lemma emp_values_app rows1 rows2 :
  ClientsMenu.emp_values (rows1 ++ rows2)
  = ClientsMenu.emp_values rows1 ++ ClientsMenu.emp_values rows2.
Proof.
  induction rows1 as [|r rows1 IH]; [reflexivity|].
  cbn [app ClientsMenu.emp_values].
  destruct (negb (is_none_or_empty (ClientsMenu.row_employees r)));
    [|exact IH].
  destruct (to_float (ClientsMenu.row_employees r)); [|exact IH].
  cbn [app]. now rewrite IH.
Qed.

Lemma rows_employees files :
  Forall (fun d => Shapes.head_count_set d = true)
         (Spec.classified_of (map snd files)) ->
  ClientsMenu.emp_values (ClientsMenu.rows_of files)
  = Spec.somes (map ClientsSummary.extract_employees
                    (Spec.classified_of (map snd files))).
Proof.
  induction files as [|[name c] files IH]; intros H; [reflexivity|].
  cbn [ClientsMenu.rows_of map snd Spec.classified_of] in *.
  destruct c as [v|]; [|now apply IH]. destruct v; try now apply IH.
  change (ClientsMenu.is_client_record (VDict d))
    with (ClientsSummary.is_client_record (VDict d)) in *.
  destruct (ClientsSummary.is_client_record (VDict d)); [|now apply IH].
  inversion H as [|? ? Hd Hrest]; subst.
  change (ClientsMenu.make_row name d :: ClientsMenu.rows_of files)
    with ([ClientsMenu.make_row name d] ++ ClientsMenu.rows_of files).
  rewrite emp_values_app, (row_employees_value name d Hd), (IH Hrest).
  cbn [map]. now destruct (ClientsSummary.extract_employees d).
Qed.

(** X18. When every accepted document that carries a head count carries
    one that Python takes for true, the fallback summary of the menu
    computes the same average head count as [summarize]. *)
Theorem fallback_average_agrees :
  forall folder,
    Forall (fun d => Shapes.head_count_set d = true) (Spec.classified folder) ->
    ClientsMenu.fallback_average (ClientsMenu.view_all_clients folder)
    = ClientsSummary.avg_employees (ClientsSummary.summarize folder).
Proof.
  intros folder H.
  rewrite summarize_average. unfold ClientsMenu.fallback_average.
  unfold ClientsMenu.view_all_clients, Spec.classified, ClientsSummary.glob_json in *.
  now rewrite rows_employees.
Qed.

Lemma fallback_average_agrees_witness :
  ClientsMenu.fallback_average
    (ClientsMenu.view_all_clients Examples.ten_bad_twenty)
  = ClientsSummary.avg_employees
      (ClientsSummary.summarize Examples.ten_bad_twenty).
Proof.
  apply (fallback_average_agrees Examples.ten_bad_twenty).
  repeat constructor.
Defined.

(** *** Files the summary leaves out *)

(** X19. A file whose name does not end in [.json], or that does not
    parse, or whose document the classifier rejects, changes nothing in
    what [summarize] returns, wherever it stands in the folder. *)
Theorem summary_ignores_unusable_file :
  forall folder1 name c folder2,
    PyStr.endswith name ".json" = false \/ Spec.accepted c = false ->
    ClientsSummary.summarize (folder1 ++ (name, c) :: folder2)
    = ClientsSummary.summarize (folder1 ++ folder2).
Proof.
  intros folder1 name c folder2 [H|H]; [|now apply summarize_skips].
  unfold ClientsSummary.summarize, ClientsSummary.glob_json.
  rewrite !filter_app. cbn [filter fst]. now rewrite H.
Qed.

Lemma summary_ignores_unusable_file_witness :
  ClientsSummary.summarize
    (Examples.tech_retail_folder ++ ("notes.json", BadText) :: Examples.ten_bad_twenty)
  = ClientsSummary.summarize
      (Examples.tech_retail_folder ++ Examples.ten_bad_twenty).
Proof.
  apply (summary_ignores_unusable_file Examples.tech_retail_folder "notes.json"
           BadText Examples.ten_bad_twenty).
  right. reflexivity.
Defined.

(** *** File names made from free text *)

Lemma filename_char_not_space (c : ascii) :
  MenuInput.is_filename_char c = true -> PyStr.is_space c = false.
Proof.
  destruct c as [[] [] [] [] [] [] [] []]; vm_compute; congruence.
Qed.

Lemma slug_char_filename_char (c : ascii) :
  Intake.is_slug_char c = true -> MenuInput.is_filename_char c = true.
Proof.
  destruct c as [[] [] [] [] [] [] [] []]; vm_compute; congruence.
Qed.

Lemma slug_char_lower (c : ascii) :
  Intake.is_slug_char c = true -> PyStr.lower_char c = c.
Proof.
  destruct c as [[] [] [] [] [] [] [] []]; vm_compute; congruence.
Qed.

Lemma drop_while_none {A} (p : A -> bool) (l : list A) :
  forallb (fun x => negb (p x)) l = true -> PyStr.drop_while p l = l.
Proof.
  destruct l as [|x l]; [reflexivity|]. cbn [forallb PyStr.drop_while].
  intros H. apply andb_true_iff in H. destruct H as [H _].
  apply negb_true_iff in H. now rewrite H.
Qed.

(** stripping changes nothing in a string without the stripped characters *)
Lemma strip_with_none (p : ascii -> bool) (s : string) :
  forallb (fun c => negb (p c)) (PyStr.chars s) = true ->
  PyStr.strip_with p s = s.
Proof.
  intros H. unfold PyStr.strip_with.
  rewrite (drop_while_none p _ H).
  rewrite drop_while_none by (now rewrite forallb_rev).
  rewrite rev_involutive. apply of_chars_chars.
Qed.

Lemma sub_spaces_none rep in_run (cs : list ascii) :
  forallb (fun c => negb (PyStr.is_space c)) cs = true ->
  MenuInput.sub_spaces rep in_run cs = cs.
Proof.
  revert in_run. induction cs as [|c cs IH]; intros in_run H; [reflexivity|].
  cbn [forallb] in H. apply andb_true_iff in H. destruct H as [Hc H].
  apply negb_true_iff in Hc. cbn [MenuInput.sub_spaces]. rewrite Hc.
  now rewrite IH.
Qed.

Lemma forallb_impl {A} (p q : A -> bool) (l : list A) :
  (forall x, p x = true -> q x = true) ->
  forallb p l = true -> forallb q l = true.
Proof.
  intros Hpq H. apply forallb_forall. intros x Hx. apply Hpq.
  now apply (proj1 (forallb_forall p l) H).
Qed.

Lemma or_client_safe (l : list ascii) :
  forallb MenuInput.is_filename_char l = true ->
  forallb MenuInput.is_filename_char
          (PyStr.chars (MenuInput.or_client (PyStr.of_chars l))) = true
  /\ String.eqb (MenuInput.or_client (PyStr.of_chars l)) "" = false.
Proof.
  intros H. unfold MenuInput.or_client.
  destruct (String.eqb (PyStr.of_chars l) "") eqn:E.
  - split; reflexivity.
  - rewrite chars_of_chars. now split.
Qed.

(** a non-empty text of file-name characters is its own file name *)
Lemma sanitize_filename_fixed (s : string) :
  forallb MenuInput.is_filename_char (PyStr.chars s) = true ->
  String.eqb s "" = false ->
  MenuInput.sanitize_filename s = s.
Proof.
  intros H Hne.
  assert (Hs : forallb (fun c => negb (PyStr.is_space c)) (PyStr.chars s) = true).
  { revert H. apply forallb_impl. intros c Hc.
    now rewrite (filename_char_not_space c Hc). }
  unfold MenuInput.sanitize_filename, PyStr.strip.
  rewrite (strip_with_none _ s Hs).
  unfold MenuInput.or_client at 2. rewrite Hne.
  rewrite (sub_spaces_none _ _ _ Hs), (forallb_filter_id _ _ H), of_chars_chars.
  unfold MenuInput.or_client. now rewrite Hne.
Qed.

(** X20. Whatever text it is given, [sanitize_filename] returns a
    non-empty name made of ASCII letters, digits, [_] and [-] only: no
    separator, no dot, no whitespace. *)
Theorem sanitize_filename_safe :
  forall name,
    forallb MenuInput.is_filename_char
            (PyStr.chars (MenuInput.sanitize_filename name)) = true
    /\ String.eqb (MenuInput.sanitize_filename name) "" = false.
Proof.
  intros name. unfold MenuInput.sanitize_filename.
  apply or_client_safe, forallb_filter.
Qed.

(** X21. [sanitize_filename] is idempotent: a name it has produced is
    returned unchanged. *)
Theorem sanitize_filename_idempotent :
  forall name,
    MenuInput.sanitize_filename (MenuInput.sanitize_filename name)
    = MenuInput.sanitize_filename name.
Proof.
  intros name.
  assert (S : forallb MenuInput.is_filename_char
                      (PyStr.chars (MenuInput.sanitize_filename name)) = true
              /\ String.eqb (MenuInput.sanitize_filename name) "" = false).
  { unfold MenuInput.sanitize_filename. apply or_client_safe, forallb_filter. }
  destruct S as [S1 S2]. now apply sanitize_filename_fixed.
Qed.

Lemma slugify_chars (value : string) :
  forallb Intake.is_slug_char (PyStr.chars (Intake._slugify value)) = true
  /\ String.eqb (Intake._slugify value) "" = false.
Proof.
  unfold Intake._slugify, MenuInput.or_client.
  destruct (String.eqb (PyStr.of_chars _) "") eqn:E.
  - split; reflexivity.
  - rewrite chars_of_chars. split; [apply forallb_filter | exact E].
Qed.

(** X22. The slug that the intake tool makes of a business name is never
    empty, holds lower-case ASCII letters, digits, [-] and [_] only, and
    is its own slug. *)
Theorem slugify_safe_and_stable :
  forall value,
    forallb Intake.is_slug_char (PyStr.chars (Intake._slugify value)) = true
    /\ String.eqb (Intake._slugify value) "" = false
    /\ Intake._slugify (Intake._slugify value) = Intake._slugify value.
Proof.
  intros value. destruct (slugify_chars value) as [H Hne].
  repeat split; try assumption.
  set (s := Intake._slugify value) in *. clearbody s.
  assert (Hs : forallb (fun c => negb (PyStr.is_space c)) (PyStr.chars s) = true).
  { revert H. apply forallb_impl. intros c Hc.
    now rewrite (filename_char_not_space c (slug_char_filename_char c Hc)). }
  unfold Intake._slugify, PyStr.strip. rewrite (strip_with_none _ s Hs).
  assert (L : PyStr.lower s = s).
  { unfold PyStr.lower.
    rewrite (map_ext_in PyStr.lower_char (fun c => c)).
    - rewrite map_id. apply of_chars_chars.
    - intros c Hc. apply slug_char_lower.
      now apply (proj1 (forallb_forall _ _) H). }
  rewrite L, (sub_spaces_none _ _ _ Hs), (forallb_filter_id _ _ H), of_chars_chars.
  unfold MenuInput.or_client. now rewrite Hne.
Qed.

(** *** Prompts and validators *)

Lemma prompt_returns_accepted_aux label required validate inputs :
  forall v rest out,
    MenuInput.prompt label required validate inputs = (Some v, rest, out) ->
    (exists before line,
        inputs = before ++ line :: rest /\ v = PyStr.strip line)
    /\ (required = true -> String.eqb v "" = false)
    /\ (forall check,
           validate = Some check -> String.eqb v "" = false ->
           check v = None \/ check v = Some "").
Proof.
  induction inputs as [|line inputs IH]; intros v rest out H.
  - discriminate H.
  - cbn [MenuInput.prompt] in H. cbv zeta in H.
    destruct (MenuInput.prompt label required validate inputs)
      as [[r rest'] out'] eqn:P.
    assert (Again : forall o, (r, rest', o) = (Some v, rest, out) ->
              (exists before line0,
                  line :: inputs = before ++ line0 :: rest
                  /\ v = PyStr.strip line0)
              /\ (required = true -> String.eqb v "" = false)
              /\ (forall check,
                     validate = Some check -> String.eqb v "" = false ->
                     check v = None \/ check v = Some "")).
    { intros o E. injection E as -> -> _.
      destruct (IH v rest out' eq_refl) as ((before & line0 & -> & Hv) & Hr & Hc).
      split; [|split; assumption].
      exists (line :: before), line0. split; [reflexivity | assumption]. }
    assert (Here : forall o, (Some (PyStr.strip line), inputs, o) = (Some v, rest, out) ->
              exists before line0,
                  line :: inputs = before ++ line0 :: rest
                  /\ v = PyStr.strip line0).
    { intros o E. injection E as <- <- _. now exists [], line. }
    destruct (String.eqb (PyStr.strip line) "" && required) eqn:E1;
      [exact (Again _ H)|].
    assert (Hreq : required = true -> String.eqb (PyStr.strip line) "" = false).
    { intros ->. now rewrite andb_true_r in E1. }
    destruct validate as [check|].
    + destruct (negb (String.eqb (PyStr.strip line) "")) eqn:E2.
      * destruct (check (PyStr.strip line)) as [msg|] eqn:E3.
        -- destruct (negb (String.eqb msg "")) eqn:E4; [exact (Again _ H)|].
           split; [exact (Here _ H)|]. injection H as <- _ _.
           split; [exact Hreq|]. intros check' [= <-] _. right.
           apply negb_false_iff, String.eqb_eq in E4. now subst msg.
        -- split; [exact (Here _ H)|]. injection H as <- _ _.
           split; [exact Hreq|]. intros check' [= <-] _. now left.
      * split; [exact (Here _ H)|]. injection H as <- _ _.
        split; [exact Hreq|]. intros check' _ Hne.
        apply negb_false_iff in E2. congruence.
    + split; [exact (Here _ H)|]. injection H as <- _ _.
      split; [exact Hreq|]. intros check' [=].
Qed.

(** X23. A value that [prompt] returns is the stripped text of the line
    it stopped at, with the lines after it left unread; it is not empty
    when an answer is required, and, when it is not empty, the validator
    had nothing to say against it. *)
Theorem prompt_returns_accepted :
  forall label required validate inputs v rest out,
    MenuInput.prompt label required validate inputs = (Some v, rest, out) ->
    (exists before line,
        inputs = before ++ line :: rest /\ v = PyStr.strip line)
    /\ (required = true -> String.eqb v "" = false)
    /\ (forall check,
           validate = Some check -> String.eqb v "" = false ->
           check v = None \/ check v = Some "").
Proof.
  intros label required validate inputs. apply prompt_returns_accepted_aux.
Qed.

Lemma prompt_returns_accepted_witness :
  (exists before line,
      ["   "; "forty"; " 1,200 "; "Retail"] = before ++ line :: ["Retail"]
      /\ "1,200" = PyStr.strip line)
  /\ (true = true -> String.eqb "1,200" "" = false)
  /\ (forall check,
         Some MenuInput.validate_employees = Some check ->
         String.eqb "1,200" "" = false ->
         check "1,200" = None \/ check "1,200" = Some "").
Proof.
  apply (prompt_returns_accepted "Employees count" true
           (Some MenuInput.validate_employees)
           ["   "; "forty"; " 1,200 "; "Retail"] "1,200" ["Retail"]
           (snd (MenuInput.prompt "Employees count" true
                   (Some MenuInput.validate_employees)
                   ["   "; "forty"; " 1,200 "; "Retail"]))).
  vm_compute. reflexivity.
Defined.






(** *** Saving a client from the menu *)




Lemma write_text_twice f name c1 c2 :
  MenuInput.write_text (MenuInput.write_text f name c1) name c2
  = MenuInput.write_text f name c2.
Proof.
  induction f as [|[n c'] f IH]; cbn [MenuInput.write_text].
  - now rewrite String.eqb_refl.
  - destruct (String.eqb name n) eqn:E; cbn [MenuInput.write_text]; rewrite E.
    + reflexivity.
    + now rewrite IH.
Qed.






(** X26. [save_client] does not look for an existing file: of two
    records whose business and contact names give the same file name,
    the one saved last takes the place of the other, and the folder is
    as if the first had never been saved. *)
Theorem later_save_replaces_earlier :
  forall py_repr f record1 record2,
    MenuInput.client_file_name py_repr record1
    = MenuInput.client_file_name py_repr record2 ->
    snd (MenuInput.save_client py_repr
           (snd (MenuInput.save_client py_repr f record1)) record2)
    = snd (MenuInput.save_client py_repr f record2).
Proof.
  intros py_repr f record1 record2 E. unfold MenuInput.save_client.
  rewrite E.
  destruct (serialisable (VDict record1)), (serialisable (VDict record2));
    cbn [snd]; apply write_text_twice.
Qed.

Lemma later_save_replaces_earlier_witness :
  snd (MenuInput.save_client (fun _ => "")
         (snd (MenuInput.save_client (fun _ => "") []
                 [("name", VStr "Ann"); ("business_name", VStr "Acme Corp")]))
         [("name", VStr "Corp Ann"); ("business_name", VStr "Acme")])
  = snd (MenuInput.save_client (fun _ => "") []
           [("name", VStr "Corp Ann"); ("business_name", VStr "Acme")]).
Proof.
  apply (later_save_replaces_earlier (fun _ => "") []
           [("name", VStr "Ann"); ("business_name", VStr "Acme Corp")]
           [("name", VStr "Corp Ann"); ("business_name", VStr "Acme")]).
  vm_compute. reflexivity.
Defined.





(** *** Growing folders *)



